(** * Casting agency backend: the authorization pipeline and its HTTP boundary

    A shallow embedding of [backend/src/auth/auth.py] and [backend/src/api.py]
    (with the entity classes of [backend/src/models.py]), and the properties
    of the authorization pipeline proved over it.

    Conventions of the embedding:
    - Python text is a [string]; an HTTP header value is the latin-1 text the
      WSGI layer hands over, one [ascii] per character;
    - JSON documents and the Python values built from them are [pyval];
    - a Python exception is a value of [exn]; code that may raise returns a
      [result]; code that also logs or touches the tables is a computation
      [M] over the [World];
    - the libraries the code calls (python-jose, urllib, json, the SQLAlchemy
      session, the environment) are the fields of a [Platform]. *)

From Stdlib Require Import String Ascii List ZArith Bool Lia.
Import ListNotations.
Local Open Scope string_scope.
Local Open Scope Z_scope.

Set Implicit Arguments.
Local Set Warnings "-register-all".

(** ** Python values *)

(** The values [json.loads], [request.get_json] and [jwt.decode] produce.
    A [dict] keeps its insertion order; JSON object keys are strings.
    JSON numbers are restricted to integers. *)
Inductive pyval : Type :=
| PNone
| PBool (b : bool)
| PInt (z : Z)
| PStr (s : string)
| PList (l : list pyval)
| PDict (d : list (string * pyval)).

(** ** Exceptions *)

(** The exception classes that occur; [class_bases] gives the direct base
    class below [Exception]. *)
Inductive exn_class : Type :=
| Exception_
| LookupError | KeyError | IndexError
| TypeError | AttributeError
| ValueError | JSONDecodeError
| OSError | URLError | HTTPError
| JOSEError | JWSError | JWSSignatureError | JWKError
| JWTError | JWTClaimsError | ExpiredSignatureError
| SQLAlchemyError.

Definition exn_class_eqb (a b : exn_class) : bool :=
  match a, b with
  | Exception_, Exception_ | LookupError, LookupError | KeyError, KeyError
  | IndexError, IndexError | TypeError, TypeError
  | AttributeError, AttributeError | ValueError, ValueError
  | JSONDecodeError, JSONDecodeError | OSError, OSError | URLError, URLError
  | HTTPError, HTTPError | JOSEError, JOSEError | JWSError, JWSError
  | JWSSignatureError, JWSSignatureError | JWKError, JWKError
  | JWTError, JWTError | JWTClaimsError, JWTClaimsError
  | ExpiredSignatureError, ExpiredSignatureError
  | SQLAlchemyError, SQLAlchemyError => true
  | _, _ => false
  end.

Definition class_bases (c : exn_class) : option exn_class :=
  match c with
  | Exception_ => None
  | KeyError | IndexError => Some LookupError
  | JSONDecodeError => Some ValueError
  | URLError => Some OSError
  | HTTPError => Some URLError
  | JWSError | JWKError | JWTError => Some JOSEError
  | JWSSignatureError => Some JWSError
  | JWTClaimsError | ExpiredSignatureError => Some JWTError
  | _ => Some Exception_
  end.

(** [issubclass c target]; the hierarchy is at most four levels deep. *)
Fixpoint issubclass_fuel (n : nat) (c target : exn_class) : bool :=
  exn_class_eqb c target ||
  match n with
  | O => false
  | S n' =>
      match class_bases c with
      | Some b => issubclass_fuel n' b target
      | None => false
      end
  end.

Definition issubclass : exn_class -> exn_class -> bool := issubclass_fuel 4.

(** The [error] dictionary of an [AuthError]: every [raise AuthError] of the
    program gives it exactly the keys ["code"] and ["description"]. *)
Record auth_error_body : Type := mk_body {
  code : string;
  description : string
}.

Inductive exn : Type :=
| AuthError (error : auth_error_body) (status_code : Z)
    (* class AuthError(Exception) of auth.py *)
| HTTPException (http_code : Z) (http_description : string)
    (* what flask.abort raises, and what the router raises *)
| PyExc (cls : exn_class) (msg : string).
    (* an exception of the interpreter or of a library *)

Inductive result (A : Type) : Type :=
| Ok (a : A)
| Raise (e : exn).
Arguments Ok {A} a.
Arguments Raise {A} e.

Definition rbind {A B} (r : result A) (k : A -> result B) : result B :=
  match r with
  | Ok a => k a
  | Raise e => Raise e
  end.

(** What a library call gives back: a value, or an exception of one of the
    library's or the interpreter's classes (never an [AuthError], a class
    the libraries do not know). *)
Inductive lib_result (A : Type) : Type :=
| LOk (a : A)
| LRaise (cls : exn_class) (msg : string).
Arguments LOk {A} a.
Arguments LRaise {A} cls msg.

Definition of_lib {A} (r : lib_result A) : result A :=
  match r with
  | LOk a => Ok a
  | LRaise c m => Raise (PyExc c m)
  end.

Declare Scope result_scope.
Delimit Scope result_scope with result.
Notation "x <- r ;; k" := (rbind r (fun x => k))
  (at level 61, r at next level, right associativity) : result_scope.

(** ** Operations on Python values *)

Fixpoint lookup (k : string) (d : list (string * pyval)) : option pyval :=
  match d with
  | [] => None
  | (k', v) :: d' => if String.eqb k k' then Some v else lookup k d'
  end.

(** Truth value of an object ([if x:], [not x]). *)
Definition py_truthy (v : pyval) : bool :=
  match v with
  | PNone => false
  | PBool b => b
  | PInt z => negb (z =? 0)
  | PStr s => negb (String.eqb s "")
  | PList l => match l with [] => false | _ => true end
  | PDict d => match d with [] => false | _ => true end
  end.

(** [a == b]. A [bool] is an [int]; lists compare elementwise; dicts compare
    as mappings, regardless of order. *)
Fixpoint py_eq (a b : pyval) {struct a} : bool :=
  match a, b with
  | PNone, PNone => true
  | PBool x, PBool y => Bool.eqb x y
  | PBool x, PInt y => (if x then 1 else 0) =? y
  | PInt x, PBool y => x =? (if y then 1 else 0)
  | PInt x, PInt y => x =? y
  | PStr x, PStr y => String.eqb x y
  | PList xs, PList ys =>
      (fix all2 (xs ys : list pyval) : bool :=
         match xs, ys with
         | [], [] => true
         | x :: xs', y :: ys' => py_eq x y && all2 xs' ys'
         | _, _ => false
         end) xs ys
  | PDict xs, PDict ys =>
      Nat.eqb (length xs) (length ys) &&
      (fix sub (xs : list (string * pyval)) : bool :=
         match xs with
         | [] => true
         | (k, v) :: xs' =>
             match lookup k ys with
             | Some v' => py_eq v v'
             | None => false
             end && sub xs'
         end) xs
  | _, _ => false
  end.

(** [needle in haystack] for text. *)
Fixpoint is_prefix (p s : string) : bool :=
  match p, s with
  | EmptyString, _ => true
  | String a p', String b s' => Ascii.eqb a b && is_prefix p' s'
  | String _ _, EmptyString => false
  end.

Fixpoint is_substring (p s : string) : bool :=
  is_prefix p s ||
  match s with
  | EmptyString => false
  | String _ s' => is_substring p s'
  end.

(** [x in c]. *)
Definition py_in (x c : pyval) : result bool :=
  match c with
  | PList l => Ok (existsb (py_eq x) l)
  | PDict d =>
      match x with
      | PStr k => Ok (match lookup k d with Some _ => true | None => false end)
      | PList _ | PDict _ => Raise (PyExc TypeError "unhashable type")
      | _ => Ok false
      end
  | PStr s =>
      match x with
      | PStr p => Ok (is_substring p s)
      | _ => Raise (PyExc TypeError "'in <string>' requires string as left operand")
      end
  | _ => Raise (PyExc TypeError "argument is not iterable")
  end.

(** [c[k]] with a text key, as the program always writes it. *)
Definition py_getitem (c : pyval) (k : string) : result pyval :=
  match c with
  | PDict d =>
      match lookup k d with
      | Some v => Ok v
      | None => Raise (PyExc KeyError k)
      end
  | PList _ => Raise (PyExc TypeError "list indices must be integers or slices, not str")
  | PStr _ => Raise (PyExc TypeError "string indices must be integers")
  | _ => Raise (PyExc TypeError "object is not subscriptable")
  end.

(** [c.get(k, None)]. *)
Definition py_get (c : pyval) (k : string) : result pyval :=
  match c with
  | PDict d =>
      match lookup k d with
      | Some v => Ok v
      | None => Ok PNone
      end
  | _ => Raise (PyExc AttributeError "object has no attribute 'get'")
  end.

(** The items a [for] loop visits. *)
Definition py_iter (c : pyval) : result (list pyval) :=
  match c with
  | PList l => Ok l
  | PDict d => Ok (map (fun kv => PStr (fst kv)) d)
  | PStr s => Ok (map (fun a => PStr (String a EmptyString)) (list_ascii_of_string s))
  | _ => Raise (PyExc TypeError "object is not iterable")
  end.

(** [l[i]] on a Python list of text. *)
Definition list_getitem (l : list string) (i : nat) : result string :=
  match nth_error l i with
  | Some s => Ok s
  | None => Raise (PyExc IndexError "list index out of range")
  end.

(** How an f-string renders an optional text ([None] prints as [None]). *)
Definition fmt (o : option string) : string :=
  match o with
  | Some s => s
  | None => "None"
  end.

(** ** Text: [str.split()] and [str.lower()] on latin-1 text *)

(** [str.isspace] on a latin-1 character: TAB, LF, VT, FF, CR, FS, GS, RS,
    US, SPACE, NEL and the no-break space. *)
Definition is_space (a : ascii) : bool :=
  let n := nat_of_ascii a in
  ((9 <=? n) && (n <=? 13) || (28 <=? n) && (n <=? 32) ||
   (n =? 133) || (n =? 160))%nat.

(** [str.lower] on a latin-1 character: A-Z, and the accented capitals
    0xC0-0xDE except the multiplication sign 0xD7. *)
Definition lower_ascii (a : ascii) : ascii :=
  let n := nat_of_ascii a in
  if ((65 <=? n) && (n <=? 90) ||
      (192 <=? n) && (n <=? 222) && negb (n =? 215))%nat
  then ascii_of_nat (n + 32) else a.

Fixpoint lower (s : string) : string :=
  match s with
  | EmptyString => EmptyString
  | String a s' => String (lower_ascii a) (lower s')
  end.

(** [s.split()]: the maximal runs of non-space characters, in order.
    [cur] is the run being read. *)
Fixpoint split_from (cur : string) (s : string) : list string :=
  match s with
  | EmptyString =>
      match cur with EmptyString => [] | _ => [cur] end
  | String a s' =>
      if is_space a then
        match cur with
        | EmptyString => split_from EmptyString s'
        | _ => cur :: split_from EmptyString s'
        end
      else split_from (cur ++ String a EmptyString) s'
  end.

Definition split (s : string) : list string := split_from EmptyString s.

(** [x.split()] on a value that is a text or [None]. *)
Definition str_split (x : option string) : result (list string) :=
  match x with
  | Some s => Ok (split s)
  | None =>
      Raise (PyExc AttributeError "'NoneType' object has no attribute 'split'")
  end.

Fixpoint all_space (s : string) : bool :=
  match s with
  | EmptyString => true
  | String a s' => is_space a && all_space s'
  end.

(** ** The platform: libraries and environment the program runs on *)

Record Platform : Type := {
  (* os.getenv, after load_dotenv *)
  getenv : string -> option string;
  (* urlopen(url).read() *)
  urlopen_read : string -> lib_result string;
  (* json.loads *)
  json_loads : string -> lib_result pyval;
  (* jose.jwt.get_unverified_header(token) *)
  jwt_get_unverified_header : string -> lib_result pyval;
  (* jose.jwt.decode(token, key, algorithms=, audience=, issuer=) *)
  jwt_decode : string -> pyval -> pyval -> pyval -> pyval -> lib_result pyval;
  (* datetime.date, as a Date column holds it *)
  date : Type;
  (* the value a Date column stores for what it is assigned *)
  to_date : pyval -> lib_result date;
  (* d.strftime(fmt) *)
  strftime : date -> string -> string;
  (* db.session.commit() of the pending change: accepted, or an error *)
  session_commit : lib_result unit
}.

Definition opt_py (o : option string) : pyval :=
  match o with
  | Some s => PStr s
  | None => PNone
  end.

(** ** Requests, the world, and computations *)

(** The endpoints [create_app] registers, as the URL map resolves a request
    to them; [id] is the [<int:id>] segment. *)
Inductive Endpoint : Type :=
| get_health_ep                 (* GET / *)
| get_actors_ep                 (* GET /actors *)
| get_movies_ep                 (* GET /movies *)
| create_actor_ep               (* POST /actors *)
| create_movie_ep               (* POST /movies *)
| update_actor_ep (id : Z)      (* PATCH /actors/<int:id> *)
| update_movie_ep (id : Z)      (* PATCH /movies/<int:id> *)
| delete_actor_ep (id : Z)      (* DELETE /actors/<int:id> *)
| delete_movie_ep (id : Z).     (* DELETE /movies/<int:id> *)

(** What the URL map answers for a request: an endpoint, or a routing
    error (404 when no rule matches, 405 when only the method differs). *)
Inductive Routed : Type :=
| Matched (ep : Endpoint)
| RoutingError (http_code : Z) (http_description : string).

Record Request : Type := {
  routed : Routed;
  (* request.headers.get("Authorization", None) *)
  authorization : option string;
  (* request.get_json(): the parsed body, or the error it raises *)
  get_json : result pyval
}.

Inductive level : Type := INFO | ERROR.

Section Program.

Variable P : Platform.

Record Actor : Type := {
  actor_id : Z;
  actor_name : pyval;
  actor_age : pyval;
  actor_gender : pyval
}.

Record Movie : Type := {
  movie_id : Z;
  movie_title : pyval;
  movie_release_date : date P
}.

Record World : Type := {
  log : list (level * string);     (* what went to the log file, oldest first *)
  actors : list Actor;             (* table "actors" *)
  movies : list Movie;             (* table "movies" *)
  actors_seq : Z;                  (* last primary key given out *)
  movies_seq : Z
}.

(** A computation reads the current request, may change the world, and
    returns or raises. *)
Definition M (A : Type) : Type := Request -> World -> result A * World.

Definition ret {A} (a : A) : M A := fun _ w => (Ok a, w).
Definition raise {A} (e : exn) : M A := fun _ w => (Raise e, w).
Definition bind {A B} (m : M A) (k : A -> M B) : M B :=
  fun req w =>
    match m req w with
    | (Ok a, w') => k a req w'
    | (Raise e, w') => (Raise e, w')
    end.
Definition lift {A} (r : result A) : M A := fun _ w => (r, w).
Definition request : M Request := fun req w => (Ok req, w).
Definition get_world : M World := fun _ w => (Ok w, w).
Definition put_world (w : World) : M unit := fun _ _ => (Ok tt, w).

Declare Scope m_scope.
Delimit Scope m_scope with M.
Notation "x <- m ;; k" := (bind m (fun x => k))
  (at level 61, m at next level, right associativity) : m_scope.
Notation "m ;;; k" := (bind m (fun _ => k))
  (at level 61, right associativity) : m_scope.

Definition add_log (w : World) (lv : level) (msg : string) : World :=
  {| log := log w ++ [(lv, msg)];
     actors := actors w; movies := movies w;
     actors_seq := actors_seq w; movies_seq := movies_seq w |}.

Definition logging (lv : level) (msg : string) : M unit :=
  fun _ w => (Ok tt, add_log w lv msg).

(** ** auth.py *)

Definition AUTH0_DOMAIN : option string := getenv P "AUTH0_DOMAIN".
Definition ALGORITHMS : pyval := PList [opt_py (getenv P "ALGORITHMS")].
Definition API_AUDIENCE : option string := getenv P "API_AUDIENCE".

Definition get_token_auth_header : M string :=
  (req <- request ;;
   let auth := authorization req in
   logging INFO ("Authorization header: " ++ fmt auth) ;;;
   if negb (py_truthy (opt_py auth)) then
     raise (AuthError
              {| code := "authorization_header_missing";
                 description := "Authorization header is expected." |}
              401)
   else
     parts <- lift (str_split auth) ;;
     part0 <- lift (list_getitem parts 0) ;;
     if negb (String.eqb (lower part0) "bearer") then
       raise (AuthError
                {| code := "invalid_header";
                   description := "Authorization header must start with 'Bearer'." |}
                401)
     else if Nat.eqb (length parts) 1 then
       raise (AuthError
                {| code := "invalid_header"; description := "Token not found." |}
                401)
     else if Nat.ltb 2 (length parts) then
       raise (AuthError
                {| code := "invalid_header";
                   description := "Authorization header must be 'Bearer <token>'." |}
                401)
     else lift (list_getitem parts 1))%M.

(** The world after [get_token_auth_header] has logged the header [auth]. *)
Definition seen (w : World) (auth : option string) : World :=
  add_log w INFO ("Authorization header: " ++ fmt auth).

Definition check_permissions (permission : string) (payload : pyval)
  : result pyval :=
  (present <- py_in (PStr "permissions") payload ;;
   if negb present then
     Raise (AuthError
              {| code := "invalid_claims";
                 description := "Permissions not included in JWT." |}
              403)
   else
     permissions <- py_getitem payload "permissions" ;;
     granted <- py_in (PStr permission) permissions ;;
     if negb granted then
       Raise (AuthError
                {| code := "unauthorized"; description := "Permission not found." |}
                403)
     else Ok (PBool true))%result.

(** The [for key in jwks["keys"]] loop: every key whose ["kid"] equals the
    header's replaces [rsa_key]; there is no [break]. *)
Fixpoint select_rsa_key (keys : list pyval) (unverified_header : pyval)
    (rsa_key : pyval) : result pyval :=
  match keys with
  | [] => Ok rsa_key
  | key :: rest =>
      (kid <- py_getitem key "kid" ;;
       hkid <- py_getitem unverified_header "kid" ;;
       if py_eq kid hkid then
         kty <- py_getitem key "kty" ;;
         kid' <- py_getitem key "kid" ;;
         use <- py_getitem key "use" ;;
         n <- py_getitem key "n" ;;
         e <- py_getitem key "e" ;;
         select_rsa_key rest unverified_header
           (PDict [("kty", kty); ("kid", kid'); ("use", use); ("n", n); ("e", e)])
       else select_rsa_key rest unverified_header rsa_key)%result
  end.

(** f"https://{AUTH0_DOMAIN}/.well-known/jwks.json" and
    f"https://{AUTH0_DOMAIN}/" *)
Definition jwks_url : string :=
  "https://" ++ fmt AUTH0_DOMAIN ++ "/.well-known/jwks.json".

Definition issuer : string := "https://" ++ fmt AUTH0_DOMAIN ++ "/".

Definition verify_decode_jwt (token : string) : result pyval :=
  (jsonurl <- of_lib (urlopen_read P jwks_url) ;;
   jwks <- of_lib (json_loads P jsonurl) ;;
   unverified_header <-
     match jwt_get_unverified_header P token with
     | LOk h => Ok h
     | LRaise c m =>
         if issubclass c JWTError then
           Raise (AuthError
                    {| code := "invalid_header";
                       description := "Error decoding token header: " ++ m |}
                    400)
         else Raise (PyExc c m)
     end ;;
   has_kid <- py_in (PStr "kid") unverified_header ;;
   if negb has_kid then
     Raise (AuthError
              {| code := "invalid_header";
                 description := "Authorization header is malformed." |}
              401)
   else
     keys_v <- py_getitem jwks "keys" ;;
     keys <- py_iter keys_v ;;
     rsa_key <- select_rsa_key keys unverified_header (PDict []) ;;
     if py_truthy rsa_key then
       match jwt_decode P token rsa_key ALGORITHMS (opt_py API_AUDIENCE)
               (PStr issuer) with
       | LOk payload => Ok payload
       | LRaise c m =>
           if issubclass c ExpiredSignatureError then
             Raise (AuthError
                      {| code := "token_expired"; description := "Token is expired." |}
                      401)
           else if issubclass c JWTClaimsError then
             Raise (AuthError
                      {| code := "invalid_claims";
                         description := "Incorrect claims. Check audience and issuer." |}
                      401)
           else
             Raise (AuthError
                      {| code := "invalid_header";
                         description := "Unable to parse authentication token." |}
                      400)
       end
     else
       Raise (AuthError
                {| code := "invalid_header";
                   description := "Unable to find the appropriate key." |}
                400))%result.

(** [requires_auth(permission)(f)]: the wrapper that replaces [f]. [Args]
    stands for the positional and keyword arguments passed through. *)
Definition requires_auth {Args R : Type} (permission : string)
    (f : pyval -> Args -> M R) : Args -> M R :=
  fun args =>
    (token <- get_token_auth_header ;;
     payload <- lift (verify_decode_jwt token) ;;
     lift (check_permissions permission payload) ;;;
     f payload args)%M.

(** A stage of the gate raises the [AuthError] made of [error] and
    [status_code] for the current request, leaving the world [w1]: the
    extraction of the token, its verification, or the permission check. *)
Inductive stage_raises (permission : string) (req : Request) (w : World)
    (error : auth_error_body) (status_code : Z) (w1 : World) : Prop :=
| extraction_raises :
    get_token_auth_header req w = (Raise (AuthError error status_code), w1) ->
    stage_raises permission req w error status_code w1
| verification_raises (token : string) :
    get_token_auth_header req w = (Ok token, w1) ->
    verify_decode_jwt token = Raise (AuthError error status_code) ->
    stage_raises permission req w error status_code w1
| permission_check_raises (token : string) (payload : pyval) :
    get_token_auth_header req w = (Ok token, w1) ->
    verify_decode_jwt token = Ok payload ->
    check_permissions permission payload = Raise (AuthError error status_code) ->
    stage_raises permission req w error status_code w1.

(** ** models.py *)

(** Rows hold the values as the program assigns them; [to_date] stands for
    what a Date column makes of the assigned value. *)

Definition Actor_format (a : Actor) : pyval :=
  PDict [("id", PInt (actor_id a)); ("name", actor_name a);
         ("age", actor_age a); ("gender", actor_gender a)].

Definition Movie_format (m : Movie) : pyval :=
  PDict [("id", PInt (movie_id m)); ("title", movie_title m);
         ("release_date", PStr (strftime P (movie_release_date m) "%Y-%m-%d"))].

Definition set_actors (w : World) (l : list Actor) (seq : Z) : World :=
  {| log := log w; actors := l; movies := movies w;
     actors_seq := seq; movies_seq := movies_seq w |}.

Definition set_movies (w : World) (l : list Movie) (seq : Z) : World :=
  {| log := log w; actors := actors w; movies := l;
     actors_seq := actors_seq w; movies_seq := seq |}.

(** [Actor.query.all()], [Actor.query.get(id)] *)
Definition Actor_query_all : M (list Actor) :=
  fun _ w => (Ok (actors w), w).

Definition Actor_query_get (id : Z) : M (option Actor) :=
  fun _ w => (Ok (find (fun a => actor_id a =? id) (actors w)), w).

Definition Movie_query_all : M (list Movie) :=
  fun _ w => (Ok (movies w), w).

Definition Movie_query_get (id : Z) : M (option Movie) :=
  fun _ w => (Ok (find (fun m => movie_id m =? id) (movies w)), w).

(** [Actor(name=, age=, gender=).insert()]: the row gets the next key when
    the commit goes through; a failed commit leaves the table as it was. *)
Definition Actor_insert (name age gender : pyval) : M Actor :=
  (lift (of_lib (session_commit P)) ;;;
   w <- get_world ;;
   let a := {| actor_id := actors_seq w + 1; actor_name := name;
               actor_age := age; actor_gender := gender |} in
   put_world (set_actors w (actors w ++ [a]) (actors_seq w + 1)) ;;;
   ret a)%M.

Definition replace_actor (a : Actor) (l : list Actor) : list Actor :=
  map (fun x => if actor_id x =? actor_id a then a else x) l.

Definition Actor_update (a : Actor) : M unit :=
  (lift (of_lib (session_commit P)) ;;;
   w <- get_world ;;
   put_world (set_actors w (replace_actor a (actors w)) (actors_seq w)))%M.

Definition Actor_delete (a : Actor) : M unit :=
  (lift (of_lib (session_commit P)) ;;;
   w <- get_world ;;
   put_world (set_actors w
                (filter (fun x => negb (actor_id x =? actor_id a)) (actors w))
                (actors_seq w)))%M.

Definition Movie_insert (title release_date : pyval) : M Movie :=
  (d <- lift (of_lib (to_date P release_date)) ;;
   lift (of_lib (session_commit P)) ;;;
   w <- get_world ;;
   let m := {| movie_id := movies_seq w + 1; movie_title := title;
               movie_release_date := d |} in
   put_world (set_movies w (movies w ++ [m]) (movies_seq w + 1)) ;;;
   ret m)%M.

Definition replace_movie (m : Movie) (l : list Movie) : list Movie :=
  map (fun x => if movie_id x =? movie_id m then m else x) l.

(** [movie.update()] after the handler assigned [title] and, when
    [release_date] is [Some v], the value [v] to [movie.release_date]. *)
Definition Movie_update (m : Movie) (title : pyval)
    (release_date : option pyval) : M Movie :=
  (d <- match release_date with
        | Some v => lift (of_lib (to_date P v))
        | None => ret (movie_release_date m)
        end ;;
   lift (of_lib (session_commit P)) ;;;
   w <- get_world ;;
   let m' := {| movie_id := movie_id m; movie_title := title;
                movie_release_date := d |} in
   put_world (set_movies w (replace_movie m' (movies w)) (movies_seq w)) ;;;
   ret m')%M.

Definition Movie_delete (m : Movie) : M unit :=
  (lift (of_lib (session_commit P)) ;;;
   w <- get_world ;;
   put_world (set_movies w
                (filter (fun x => negb (movie_id x =? movie_id m)) (movies w))
                (movies_seq w)))%M.

(** ** api.py *)

Inductive Body : Type :=
| Json (v : pyval)          (* application/json *)
| Html (page : string).     (* the framework's own error page, text/html *)

Record Response : Type := {
  body : Body;
  status : Z
}.

Definition jsonify (v : pyval) : Response := {| body := Json v; status := 200 |}.

(** A view returning the pair [(response, status)]. *)
Definition with_status (r : Response) (s : Z) : Response :=
  {| body := body r; status := s |}.

Definition abort {A} (http_code : Z) (http_description : string) : M A :=
  raise (HTTPException http_code http_description).

Definition get_health : M Response :=
  ret (jsonify (PDict [("success", PBool true); ("health", PBool true)])).

Definition get_actors (jwt : pyval) (_ : unit) : M Response :=
  (actors <- Actor_query_all ;;
   if negb (match actors with [] => false | _ => true end) then
     abort 404 "No actors found"
   else
     ret (jsonify (PDict [("success", PBool true);
                          ("actors", PList (map Actor_format actors))])))%M.

Definition get_movies (jwt : pyval) (_ : unit) : M Response :=
  (movies <- Movie_query_all ;;
   if negb (match movies with [] => false | _ => true end) then
     abort 404 "No movies found"
   else
     ret (jsonify (PDict [("success", PBool true);
                          ("movies", PList (map Movie_format movies))])))%M.

Definition create_actor (jwt : pyval) (_ : unit) : M Response :=
  (req <- request ;;
   body <- lift (get_json req) ;;
   if negb (py_truthy body) then abort 400 "Bad request, no data provided"
   else
     name <- lift (py_get body "name") ;;
     age <- lift (py_get body "age") ;;
     gender <- lift (py_get body "gender") ;;
     if negb (py_truthy name) || negb (py_truthy age) || negb (py_truthy gender)
     then abort 400 "Missing required fields"
     else
       new_actor <- Actor_insert name age gender ;;
       ret (jsonify (PDict [("success", PBool true);
                            ("actor", Actor_format new_actor)])))%M.

Definition create_movie (jwt : pyval) (_ : unit) : M Response :=
  (req <- request ;;
   body <- lift (get_json req) ;;
   if negb (py_truthy body) then abort 400 "Bad request, no data provided"
   else
     title <- lift (py_get body "title") ;;
     release_date <- lift (py_get body "release_date") ;;
     if negb (py_truthy title) || negb (py_truthy release_date)
     then abort 400 "Missing required fields"
     else
       new_movie <- Movie_insert title release_date ;;
       ret (jsonify (PDict [("success", PBool true);
                            ("movie", Movie_format new_movie)])))%M.

(** [if key in body: obj.attr = body[key]] *)
Definition assign_if_present (body : pyval) (key : string) (old : pyval)
  : M pyval :=
  (present <- lift (py_in (PStr key) body) ;;
   if present then lift (py_getitem body key) else ret old)%M.

Definition update_actor (jwt : pyval) (id : Z) : M Response :=
  (found <- Actor_query_get id ;;
   match found with
   | None => abort 404 "Actor not found"
   | Some actor =>
       req <- request ;;
       body <- lift (get_json req) ;;
       name <- assign_if_present body "name" (actor_name actor) ;;
       age <- assign_if_present body "age" (actor_age actor) ;;
       gender <- assign_if_present body "gender" (actor_gender actor) ;;
       let actor' := {| actor_id := actor_id actor; actor_name := name;
                        actor_age := age; actor_gender := gender |} in
       Actor_update actor' ;;;
       ret (jsonify (PDict [("success", PBool true);
                            ("actor", Actor_format actor')]))
   end)%M.

Definition update_movie (jwt : pyval) (id : Z) : M Response :=
  (found <- Movie_query_get id ;;
   match found with
   | None => abort 404 "Movie not found"
   | Some movie =>
       req <- request ;;
       body <- lift (get_json req) ;;
       title <- assign_if_present body "title" (movie_title movie) ;;
       present <- lift (py_in (PStr "release_date") body) ;;
       release_date <-
         (if present then
            v <- lift (py_getitem body "release_date") ;; ret (Some v)
          else ret None) ;;
       movie' <- Movie_update movie title release_date ;;
       ret (jsonify (PDict [("success", PBool true);
                            ("movie", Movie_format movie')]))
   end)%M.

Definition delete_actor (jwt : pyval) (id : Z) : M Response :=
  (found <- Actor_query_get id ;;
   match found with
   | None => abort 404 "Actor not found"
   | Some actor =>
       Actor_delete actor ;;;
       ret (jsonify (PDict [("success", PBool true); ("delete", PInt id)]))
   end)%M.

Definition delete_movie (jwt : pyval) (id : Z) : M Response :=
  (found <- Movie_query_get id ;;
   match found with
   | None => abort 404 "Movie not found"
   | Some movie =>
       Movie_delete movie ;;;
       ret (jsonify (PDict [("success", PBool true); ("delete", PInt id)]))
   end)%M.

(** The registered error handlers. *)
Definition auth_error (error : auth_error_body) (status_code : Z) : Response :=
  with_status
    (jsonify (PDict [("success", PBool false); ("error", PInt status_code);
                     ("message", PStr (description error))]))
    status_code.

Definition unprocessable : Response :=
  with_status
    (jsonify (PDict [("success", PBool false); ("error", PInt 422);
                     ("message", PStr "unprocessable")]))
    422.

Definition not_found : Response :=
  with_status
    (jsonify (PDict [("success", PBool false); ("error", PInt 404);
                     ("message", PStr "resource not found")]))
    404.

Definition internal_server_error (error : string) : M Response :=
  (logging ERROR ("Server Error: " ++ error) ;;;
   ret (with_status
          (jsonify (PDict [("success", PBool false); ("error", PInt 500);
                           ("message",
                            PStr "Internal Server Error. Please try again later.")]))
          500))%M.

(** The view functions behind the URL map, each under its decorator. *)
Definition view (ep : Endpoint) : M Response :=
  match ep with
  | get_health_ep => get_health
  | get_actors_ep => requires_auth "get:actors" get_actors tt
  | get_movies_ep => requires_auth "get:movies" get_movies tt
  | create_actor_ep => requires_auth "post:actors" create_actor tt
  | create_movie_ep => requires_auth "post:movies" create_movie tt
  | update_actor_ep id => requires_auth "patch:actors" update_actor id
  | update_movie_ep id => requires_auth "patch:movies" update_movie id
  | delete_actor_ep id => requires_auth "delete:actors" delete_actor id
  | delete_movie_ep id => requires_auth "delete:movies" delete_movie id
  end.

(** The permission each decorator of [view] names. *)
Definition required_permission (ep : Endpoint) : option string :=
  match ep with
  | get_health_ep => None
  | get_actors_ep => Some "get:actors"
  | get_movies_ep => Some "get:movies"
  | create_actor_ep => Some "post:actors"
  | create_movie_ep => Some "post:movies"
  | update_actor_ep _ => Some "patch:actors"
  | update_movie_ep _ => Some "patch:movies"
  | delete_actor_ep _ => Some "delete:actors"
  | delete_movie_ep _ => Some "delete:movies"
  end.

Definition dispatch_request : M Response :=
  (req <- request ;;
   match routed req with
   | RoutingError c d => raise (HTTPException c d)
   | Matched ep => view ep
   end)%M.

(** The text of the 500 error the framework wraps an unhandled exception
    in. *)
Definition internal_error_text : string :=
  "500 Internal Server Error: The server encountered an internal error and was unable to complete your request. Either the server is overloaded or there is an error in the application.".

(** What the framework does with an exception a view raised: the handler
    registered for its class or its HTTP code answers; an HTTP error with no
    handler is rendered by the framework as its own page; any other exception
    becomes a 500 error, for which a handler is registered. *)
Definition handle_user_exception (e : exn) : M Response :=
  match e with
  | AuthError error status_code => ret (auth_error error status_code)
  | HTTPException c d =>
      if c =? 422 then ret unprocessable
      else if c =? 404 then ret not_found
      else if c =? 500 then internal_server_error ("500 Internal Server Error: " ++ d)
      else ret {| body := Html d; status := c |}
  | PyExc _ _ => internal_server_error internal_error_text
  end.

(** One request through the application. *)
Definition full_dispatch_request : M Response :=
  fun req w =>
    match dispatch_request req w with
    | (Ok r, w') => (Ok r, w')
    | (Raise e, w') => handle_user_exception e req w'
    end.

End Program.

Arguments add_log {P} w lv msg.
Arguments seen {P} w auth.

(** ** Key sets *)

(** The words used below to speak about a fetched key set: a signing key is
    a JSON object with the five entries the key-set endpoint gives each key;
    it matches a header when its ["kid"] equals the header's; the verifier
    hands [rsa_key_of key] to [jwt.decode]. *)
Definition is_signing_key (key : pyval) : bool :=
  match key with
  | PDict d =>
      match lookup "kty" d, lookup "kid" d, lookup "use" d,
            lookup "n" d, lookup "e" d with
      | Some _, Some _, Some _, Some _, Some _ => true
      | _, _, _, _, _ => false
      end
  | _ => false
  end.

Definition kid_matches (hkid : pyval) (key : pyval) : bool :=
  match key with
  | PDict d =>
      match lookup "kid" d with
      | Some kid => py_eq kid hkid
      | None => false
      end
  | _ => false
  end.

Definition rsa_key_of (key : pyval) : pyval :=
  match key with
  | PDict d =>
      match lookup "kty" d, lookup "kid" d, lookup "use" d,
            lookup "n" d, lookup "e" d with
      | Some kty, Some kid, Some use, Some n, Some e =>
          PDict [("kty", kty); ("kid", kid); ("use", use); ("n", n); ("e", e)]
      | _, _, _, _, _ => PDict []
      end
  | _ => PDict []
  end.

(** ** Response envelopes *)

(** A JSON object with a boolean ["success"]; when ["success"] is false,
    also an integer ["error"] equal to the HTTP status and a text
    ["message"]. *)
Definition is_envelope (r : Response) : bool :=
  match body r with
  | Json (PDict d) =>
      match lookup "success" d with
      | Some (PBool true) => true
      | Some (PBool false) =>
          match lookup "error" d, lookup "message" d with
          | Some (PInt c), Some (PStr _) => c =? status r
          | _, _ => false
          end
      | _ => false
      end
  | _ => false
  end.

(** ** Words for the further properties *)

(** A text without white space. *)
Fixpoint no_space (s : string) : bool :=
  match s with
  | EmptyString => true
  | String a s' => negb (is_space a) && no_space s'
  end.

(** Both tables and their key counters are the same in two worlds. *)
Definition same_tables {P : Platform} (w w' : World P) : Prop :=
  actors w' = actors w /\ movies w' = movies w /\
  actors_seq w' = actors_seq w /\ movies_seq w' = movies_seq w.

(** The failure envelope the handlers build. *)
Definition failure (status_code : Z) (message : string) : Response :=
  {| body := Json (PDict [("success", PBool false); ("error", PInt status_code);
                          ("message", PStr message)]);
     status := status_code |}.

(** The request passes the gate for [permission]: its header [a] is
    "bearer" and a token, the token verifies to the claims object
    [claims], and the [permissions] list of the claims holds
    [permission]. *)
Definition granted (P : Platform) (req : Request) (permission a : string)
    (claims : list (string * pyval)) : Prop :=
  exists part0 token l,
    authorization req = Some a /\
    split a = [part0; token] /\
    lower part0 = "bearer" /\
    verify_decode_jwt P token = Ok (PDict claims) /\
    lookup "permissions" claims = Some (PList l) /\
    In (PStr permission) l.


(** ** Two platforms to run the program on *)

Definition example_env (k : string) : option string :=
  if String.eqb k "AUTH0_DOMAIN" then Some "agency.example.com"
  else if String.eqb k "ALGORITHMS" then Some "RS256"
  else if String.eqb k "API_AUDIENCE" then Some "casting"
  else None.

(** The identity provider cannot be reached; the only token is not a
    JWT. *)
Definition offline : Platform := {|
  getenv := example_env;
  urlopen_read := fun _ =>
    LRaise URLError "<urlopen error [Errno 111] Connection refused>";
  json_loads := fun _ => LRaise JSONDecodeError "Expecting value";
  jwt_get_unverified_header := fun _ =>
    LRaise JWTError "Error decoding token headers.";
  jwt_decode := fun _ _ _ _ _ => LRaise JWTError "Not enough segments";
  date := string;
  to_date := fun v =>
    match v with
    | PStr s => LOk s
    | _ => LRaise SQLAlchemyError "invalid input for a date"
    end;
  strftime := fun d _ => d;
  session_commit := LOk tt
|}.

Definition example_key (kid : string) : pyval :=
  PDict [("alg", PStr "RS256"); ("kty", PStr "RSA"); ("use", PStr "sig");
         ("n", PStr "0vx7agoebGc"); ("e", PStr "AQAB"); ("kid", PStr kid)].

Definition example_claims (permissions : list string) : pyval :=
  PDict [("iss", PStr "https://agency.example.com/"); ("aud", PStr "casting");
         ("exp", PInt 1900000000);
         ("permissions", PList (map PStr permissions))].

(** The identity provider publishes the keys [k1] and [k2]. The tokens are
    named after what they are: [garbage] is not a JWT, [nokid] has a header
    without ["kid"], [stranger] is signed with a key that is not published,
    [expired], [wrongaud] and [badsig] fail verification; [assistant] and
    [director] verify, [bare] verifies to claims without permissions. *)
Definition online : Platform := {|
  getenv := example_env;
  urlopen_read := fun url =>
    if String.eqb url "https://agency.example.com/.well-known/jwks.json"
    then LOk "jwks.json"
    else LRaise URLError "<urlopen error [Errno -2] Name or service not known>";
  json_loads := fun s =>
    if String.eqb s "jwks.json"
    then LOk (PDict [("keys", PList [example_key "k1"; example_key "k2"])])
    else LRaise JSONDecodeError "Expecting value";
  jwt_get_unverified_header := fun token =>
    if String.eqb token "garbage"
    then LRaise JWTError "Error decoding token headers."
    else if String.eqb token "nokid"
    then LOk (PDict [("alg", PStr "RS256"); ("typ", PStr "JWT")])
    else if String.eqb token "stranger"
    then LOk (PDict [("alg", PStr "RS256"); ("typ", PStr "JWT");
                     ("kid", PStr "k9")])
    else LOk (PDict [("alg", PStr "RS256"); ("typ", PStr "JWT");
                     ("kid", PStr "k2")]);
  jwt_decode := fun token _ _ _ _ =>
    if String.eqb token "expired"
    then LRaise ExpiredSignatureError "Signature has expired."
    else if String.eqb token "wrongaud"
    then LRaise JWTClaimsError "Invalid audience"
    else if String.eqb token "assistant"
    then LOk (example_claims ["get:actors"; "get:movies"])
    else if String.eqb token "director"
    then LOk (example_claims ["get:actors"; "get:movies"; "post:actors";
                              "patch:actors"; "patch:movies"; "delete:actors"])
    else if String.eqb token "bare"
    then LOk (PDict [("iss", PStr "https://agency.example.com/");
                     ("aud", PStr "casting"); ("exp", PInt 1900000000)])
    else LRaise JWTError "Signature verification failed.";
  date := string;
  to_date := fun v =>
    match v with
    | PStr s => LOk s
    | _ => LRaise SQLAlchemyError "invalid input for a date"
    end;
  strftime := fun d _ => d;
  session_commit := LOk tt
|}.

(** The [online] platform with another key set published. *)
Definition publishing (keys : list pyval) : Platform := {|
  getenv := getenv online;
  urlopen_read := urlopen_read online;
  json_loads := fun s =>
    if String.eqb s "jwks.json"
    then LOk (PDict [("keys", PList keys)])
    else LRaise JSONDecodeError "Expecting value";
  jwt_get_unverified_header := jwt_get_unverified_header online;
  jwt_decode := jwt_decode online;
  date := date online;
  to_date := to_date online;
  strftime := strftime online;
  session_commit := session_commit online
|}.

(** A header value of one no-break space (0xA0), which no HTTP server
    trims. *)
Definition nbsp : string := String (ascii_of_nat 160) EmptyString.

Definition empty_world (P : Platform) : World P :=
  {| log := []; actors := []; movies := [];
     actors_seq := 0; movies_seq := 0 |}.

(** A database with one actor. *)
Definition stocked_world (P : Platform) : World P :=
  {| log := [];
     actors := [{| actor_id := 1; actor_name := PStr "Test Actor";
                   actor_age := PInt 40; actor_gender := PStr "Female" |}];
     movies := [];
     actors_seq := 1; movies_seq := 0 |}.

Definition example_request (r : Routed) (auth : option string)
    (json : result pyval) : Request :=
  {| routed := r; authorization := auth; get_json := json |}.

(** * Properties *)

(** ** Text *)

Lemma append_one_not_empty (s : string) (a : ascii) :
  (s ++ String a EmptyString)%string <> EmptyString.
Proof. destruct s; discriminate. Qed.

Lemma split_from_all_space (s : string) :
  all_space s = true ->
  forall cur, split_from cur s =
              match cur with EmptyString => [] | _ => [cur] end.
Proof.
  induction s as [|a s IH]; simpl; intros Hs cur.
  - reflexivity.
  - apply andb_prop in Hs as [Ha Hs]. rewrite Ha.
    rewrite (IH Hs). destruct cur; reflexivity.
Qed.

Lemma split_from_nil (s : string) :
  forall cur, split_from cur s = [] -> cur = EmptyString /\ all_space s = true.
Proof.
  induction s as [|a s IH]; simpl; intros cur H.
  - destruct cur; [auto | discriminate].
  - destruct (is_space a) eqn:Ha.
    + destruct cur; [|discriminate].
      destruct (IH _ H) as [_ Hs]. auto.
    + destruct (IH _ H) as [Hc _].
      exfalso. exact (append_one_not_empty _ _ Hc).
Qed.

(** A text splits into no part exactly when it is made of white space. *)
Lemma split_nil_iff (s : string) : split s = [] <-> all_space s = true.
Proof.
  unfold split. split; intros H.
  - exact (proj2 (split_from_nil _ _ H)).
  - rewrite (split_from_all_space _ H). reflexivity.
Qed.

Lemma split_cons_not_empty (s p : string) (rest : list string) :
  split s = p :: rest -> s <> EmptyString.
Proof. intros H ->. discriminate. Qed.

Lemma eqb_empty_false (s : string) :
  s <> EmptyString -> String.eqb s "" = false.
Proof. intros H. apply String.eqb_neq. exact H. Qed.

(** ** The token extractor *)

Section Extractor.

Variable P : Platform.

(** Up to the split of a header that is there and not empty. *)
Lemma get_token_auth_header_parts (req : Request) (w : World P) (a : string) :
  authorization req = Some a ->
  a <> EmptyString ->
  get_token_auth_header req w =
  (let parts := split a in
   match list_getitem parts 0 with
   | Raise e => Raise e
   | Ok part0 =>
       if negb (String.eqb (lower part0) "bearer") then
         Raise (AuthError
                  {| code := "invalid_header";
                     description := "Authorization header must start with 'Bearer'." |}
                  401)
       else if Nat.eqb (length parts) 1 then
         Raise (AuthError
                  {| code := "invalid_header"; description := "Token not found." |}
                  401)
       else if Nat.ltb 2 (length parts) then
         Raise (AuthError
                  {| code := "invalid_header";
                     description := "Authorization header must be 'Bearer <token>'." |}
                  401)
       else list_getitem parts 1
   end, seen w (Some a)).
Proof.
  intros Hauth Hne.
  unfold get_token_auth_header, bind, request, logging, lift, raise, seen.
  rewrite Hauth.
  cbn [opt_py py_truthy fmt str_split].
  rewrite (eqb_empty_false Hne). cbn [negb].
  destruct (list_getitem (split a) 0) as [part0|e]; [|reflexivity].
  destruct (negb (String.eqb (lower part0) "bearer")); [reflexivity|].
  destruct (Nat.eqb (length (split a)) 1); [reflexivity|].
  destruct (Nat.ltb 2 (length (split a))); reflexivity.
Qed.

(** A header that is absent, or present and empty, counts as missing. *)
Lemma get_token_auth_header_missing (req : Request) (w : World P) :
  authorization req = None \/ authorization req = Some EmptyString ->
  get_token_auth_header req w =
  (Raise (AuthError
            {| code := "authorization_header_missing";
               description := "Authorization header is expected." |}
            401),
   seen w (authorization req)).
Proof.
  unfold get_token_auth_header, bind, request, logging, lift, raise, seen.
  intros [H | H]; rewrite H; reflexivity.
Qed.

(** X1: a header that has a first part, and whose first part is not
    "bearer" in any case of letters, is refused with [invalid_header],
    "Authorization header must start with 'Bearer'." and 401, however many
    parts follow. *)
Lemma get_token_auth_header_not_bearer
    (req : Request) (w : World P) (a part0 : string) (rest : list string) :
  authorization req = Some a ->
  split a = part0 :: rest ->
  lower part0 <> "bearer" ->
  get_token_auth_header req w =
  (Raise (AuthError
            {| code := "invalid_header";
               description := "Authorization header must start with 'Bearer'." |}
            401),
   seen w (Some a)).
Proof.
  intros Hauth Hsplit Hlow.
  rewrite (get_token_auth_header_parts req w Hauth (split_cons_not_empty Hsplit)).
  rewrite Hsplit. cbn [list_getitem nth_error].
  apply String.eqb_neq in Hlow. rewrite Hlow. reflexivity.
Qed.

(** C5 (the code at the input the claim names): a header that is present,
    not empty and made of white space only has no first part, so
    [parts[0]] raises [IndexError]; no [AuthError] is raised. *)
Theorem get_token_auth_header_blank
    (req : Request) (w : World P) (a : string) :
  authorization req = Some a ->
  a <> EmptyString ->
  all_space a = true ->
  get_token_auth_header req w =
  (Raise (PyExc IndexError "list index out of range"), seen w (Some a)).
Proof.
  intros Hauth Hne Hsp.
  rewrite (get_token_auth_header_parts req w Hauth Hne).
  rewrite (proj2 (split_nil_iff a) Hsp). reflexivity.
Qed.

Lemma get_token_auth_header_two_parts
    (req : Request) (w : World P) (a part0 token : string) :
  authorization req = Some a ->
  split a = [part0; token] ->
  lower part0 = "bearer" ->
  get_token_auth_header req w = (Ok token, seen w (Some a)).
Proof.
  intros Hauth Hsplit Hlow.
  rewrite (get_token_auth_header_parts req w Hauth (split_cons_not_empty Hsplit)).
  rewrite Hsplit. cbn [list_getitem nth_error].
  rewrite Hlow. reflexivity.
Qed.

(** Whatever it answers, the extractor only adds its line to the log. *)
Lemma get_token_auth_header_world
    (req : Request) (w w1 : World P) (r : result string) :
  get_token_auth_header req w = (r, w1) ->
  w1 = seen w (authorization req).
Proof.
  unfold get_token_auth_header, bind, request, logging, lift, raise, seen.
  intros H.
  destruct (negb (py_truthy (opt_py (authorization req)))).
  - now inversion H.
  - destruct (str_split (authorization req)) as [parts|e]; [|now inversion H].
    destruct (list_getitem parts 0) as [part0|e]; [|now inversion H].
    destruct (negb (String.eqb (lower part0) "bearer")); [now inversion H|].
    destruct (Nat.eqb _ 1); [now inversion H|].
    destruct (Nat.ltb 2 _); now inversion H.
Qed.

(** C6: when the first part of the header is "bearer" in any case of
    letters, a header of one part is refused with "Token not found.", a
    header of more than two parts is refused, both with [invalid_header]
    and 401, and a header of two parts yields its second part as it is. *)
Theorem get_token_auth_header_bearer
    (req : Request) (w : World P) (a part0 : string) (rest : list string) :
  authorization req = Some a ->
  split a = part0 :: rest ->
  lower part0 = "bearer" ->
  (rest = [] ->
   get_token_auth_header req w =
   (Raise (AuthError
             {| code := "invalid_header"; description := "Token not found." |}
             401),
    seen w (Some a))) /\
  ((2 <= length rest)%nat ->
   get_token_auth_header req w =
   (Raise (AuthError
             {| code := "invalid_header";
                description := "Authorization header must be 'Bearer <token>'." |}
             401),
    seen w (Some a))) /\
  (forall token, rest = [token] ->
   get_token_auth_header req w = (Ok token, seen w (Some a))).
Proof.
  intros Hauth Hsplit Hlow.
  rewrite (get_token_auth_header_parts req w Hauth (split_cons_not_empty Hsplit)).
  rewrite Hsplit. cbn [list_getitem nth_error].
  rewrite Hlow. cbn [String.eqb Ascii.eqb Bool.eqb negb].
  repeat split.
  - intros ->. reflexivity.
  - intros Hlen. destruct rest as [|t [|t' rest']]; simpl in Hlen; try lia.
    reflexivity.
  - intros token ->. reflexivity.
Qed.

End Extractor.

(** ** The permission enforcer *)

Lemma py_eq_str (p : string) (v : pyval) :
  py_eq (PStr p) v = true <-> v = PStr p.
Proof.
  destruct v; simpl; split; intros H; try discriminate.
  - apply String.eqb_eq in H. now subst.
  - inversion H. apply String.eqb_refl.
Qed.

(** Membership of a text in a Python list is membership of that very
    text. *)
Lemma existsb_py_eq_str (p : string) (l : list pyval) :
  existsb (py_eq (PStr p)) l = true <-> In (PStr p) l.
Proof.
  rewrite existsb_exists. split.
  - intros [v [Hin Heq]]. apply py_eq_str in Heq. now subst.
  - intros Hin. exists (PStr p). split; [exact Hin | now apply py_eq_str].
Qed.

Lemma check_permissions_granted
    (permission : string) (claims : list (string * pyval)) (l : list pyval) :
  lookup "permissions" claims = Some (PList l) ->
  In (PStr permission) l ->
  check_permissions permission (PDict claims) = Ok (PBool true).
Proof.
  intros Hl Hin. unfold check_permissions.
  cbn [py_in py_getitem rbind]. rewrite Hl. cbn [negb rbind py_in].
  rewrite (proj2 (existsb_py_eq_str permission l) Hin). reflexivity.
Qed.

(** With any container under [permissions] (a list, a dict, a text), the
    answer of Python's [in] decides. *)
Lemma check_permissions_container
    (permission : string) (claims : list (string * pyval))
    (permissions : pyval) (granted : bool) :
  lookup "permissions" claims = Some permissions ->
  py_in (PStr permission) permissions = Ok granted ->
  check_permissions permission (PDict claims) =
  if granted then Ok (PBool true)
  else Raise (AuthError
                {| code := "unauthorized"; description := "Permission not found." |}
                403).
Proof.
  intros Hl Hin. unfold check_permissions.
  cbn [py_in py_getitem rbind]. rewrite Hl. cbn [negb rbind].
  rewrite Hin. destruct granted; reflexivity.
Qed.

Section Enforcer.

Variable P : Platform.

(** C7: for every required permission and every claims mapping,
    [check_permissions] raises [invalid_claims] / "Permissions not included
    in JWT." / 403 when the mapping has no [permissions] entry, raises
    [unauthorized] / "Permission not found." / 403 when the required
    permission is not in the [permissions] list, and otherwise succeeds;
    in each case the world is left as it was. *)
Theorem check_permissions_cases
    (permission : string) (claims : list (string * pyval))
    (req : Request) (w : World P) :
  (lookup "permissions" claims = None ->
   lift (check_permissions permission (PDict claims)) req w =
   (Raise (AuthError
             {| code := "invalid_claims";
                description := "Permissions not included in JWT." |}
             403), w)) /\
  (forall l, lookup "permissions" claims = Some (PList l) ->
   ~ In (PStr permission) l ->
   lift (check_permissions permission (PDict claims)) req w =
   (Raise (AuthError
             {| code := "unauthorized"; description := "Permission not found." |}
             403), w)) /\
  (forall l, lookup "permissions" claims = Some (PList l) ->
   In (PStr permission) l ->
   lift (check_permissions permission (PDict claims)) req w =
   (Ok (PBool true), w)).
Proof.
  unfold lift. repeat split.
  - intros Hl. unfold check_permissions.
    cbn [py_in rbind]. rewrite Hl. reflexivity.
  - intros l Hl Hnin. unfold check_permissions.
    cbn [py_in py_getitem rbind]. rewrite Hl. cbn [negb rbind py_in].
    destruct (existsb (py_eq (PStr permission)) l) eqn:E.
    + apply existsb_py_eq_str in E. contradiction.
    + reflexivity.
  - intros l Hl Hin. now rewrite (check_permissions_granted _ _ Hl Hin).
Qed.

End Enforcer.

(** ** The token verifier *)

Lemma find_app_last {A} (f : A -> bool) (l : list A) (x : A) :
  find f (l ++ [x]) =
  match find f l with
  | Some y => Some y
  | None => if f x then Some x else None
  end.
Proof.
  induction l as [|y l IH]; simpl.
  - reflexivity.
  - destruct (f y); [reflexivity | exact IH].
Qed.

Lemma find_none_iff {A} (f : A -> bool) (l : list A) :
  find f l = None <-> (forall x, In x l -> f x = false).
Proof.
  split.
  - intros H x Hin. exact (find_none f l H x Hin).
  - induction l as [|y l IH]; simpl; intros H; [reflexivity|].
    rewrite (H y (or_introl eq_refl)). apply IH. intros x Hx. apply H. now right.
Qed.

(** On a list of signing keys the loop ends with the key built from the
    last key whose ["kid"] matches, or with [rsa_key] as it was. *)
Lemma select_rsa_key_signing_keys
    (h : list (string * pyval)) (hkid : pyval) (keys : list pyval) :
  lookup "kid" h = Some hkid ->
  forallb is_signing_key keys = true ->
  forall rsa_key,
    select_rsa_key keys (PDict h) rsa_key =
    Ok (match find (kid_matches hkid) (rev keys) with
        | Some key => rsa_key_of key
        | None => rsa_key
        end).
Proof.
  intros Hkid. induction keys as [|key rest IH]; intros Hwf rsa_key.
  - reflexivity.
  - cbn [forallb] in Hwf. apply andb_prop in Hwf as [Hkey Hrest].
    cbn [rev]. rewrite find_app_last.
    destruct key as [| | | | |d]; try discriminate Hkey.
    cbn [select_rsa_key py_getitem rbind].
    change (kid_matches hkid (PDict d))
      with (match lookup "kid" d with
            | Some kid => py_eq kid hkid
            | None => false
            end).
    assert (Hrsa : forall kty kid use n e,
               lookup "kty" d = Some kty -> lookup "kid" d = Some kid ->
               lookup "use" d = Some use -> lookup "n" d = Some n ->
               lookup "e" d = Some e ->
               rsa_key_of (PDict d) =
               PDict [("kty", kty); ("kid", kid); ("use", use);
                      ("n", n); ("e", e)]).
    { intros ? ? ? ? ? H1 H2 H3 H4 H5. unfold rsa_key_of.
      now rewrite H1, H2, H3, H4, H5. }
    cbn [is_signing_key] in Hkey.
    destruct (lookup "kty" d) as [kty|]; [|discriminate Hkey].
    destruct (lookup "kid" d) as [kid|]; [|discriminate Hkey].
    destruct (lookup "use" d) as [use|]; [|discriminate Hkey].
    destruct (lookup "n" d) as [n|]; [|discriminate Hkey].
    destruct (lookup "e" d) as [e|]; [|discriminate Hkey].
    rewrite Hkid. cbn [rbind].
    specialize (Hrsa kty kid use n e eq_refl eq_refl eq_refl eq_refl eq_refl).
    destruct (py_eq kid hkid); rewrite (IH Hrest);
      destruct (find (kid_matches hkid) (rev rest));
      try rewrite Hrsa; reflexivity.
Qed.

Lemma rsa_key_of_truthy (key : pyval) :
  is_signing_key key = true -> py_truthy (rsa_key_of key) = true.
Proof.
  destruct key as [| | | | |d]; try discriminate.
  cbn [is_signing_key rsa_key_of].
  destruct (lookup "kty" d), (lookup "kid" d), (lookup "use" d),
    (lookup "n" d), (lookup "e" d); try discriminate; reflexivity.
Qed.

(** The two [except] clauses for python-jose's own errors never compete:
    no class is below both. *)
Lemma expired_not_claims (c : exn_class) :
  issubclass c ExpiredSignatureError = true ->
  issubclass c JWTClaimsError = false.
Proof. destruct c; intros H; try discriminate H; reflexivity. Qed.

Section Verifier.

Variable P : Platform.

(** [verify_decode_jwt] once the key set is fetched and the header read. *)
Lemma verify_decode_jwt_keys
    (token jsonurl : string) (jwks unverified_header : pyval) :
  urlopen_read P (jwks_url P) = LOk jsonurl ->
  json_loads P jsonurl = LOk jwks ->
  jwt_get_unverified_header P token = LOk unverified_header ->
  py_in (PStr "kid") unverified_header = Ok true ->
  verify_decode_jwt P token =
  (keys_v <- py_getitem jwks "keys" ;;
   keys <- py_iter keys_v ;;
   rsa_key <- select_rsa_key keys unverified_header (PDict []) ;;
   if py_truthy rsa_key then
     match jwt_decode P token rsa_key (ALGORITHMS P) (opt_py (API_AUDIENCE P))
             (PStr (issuer P)) with
     | LOk payload => Ok payload
     | LRaise c m =>
         if issubclass c ExpiredSignatureError then
           Raise (AuthError
                    {| code := "token_expired"; description := "Token is expired." |}
                    401)
         else if issubclass c JWTClaimsError then
           Raise (AuthError
                    {| code := "invalid_claims";
                       description := "Incorrect claims. Check audience and issuer." |}
                    401)
         else
           Raise (AuthError
                    {| code := "invalid_header";
                       description := "Unable to parse authentication token." |}
                    400)
     end
   else
     Raise (AuthError
              {| code := "invalid_header";
                 description := "Unable to find the appropriate key." |}
              400))%result.
Proof.
  intros Hurl Hjson Hhdr Hkid. unfold verify_decode_jwt.
  rewrite Hurl. cbn [of_lib rbind]. rewrite Hjson. cbn [of_lib rbind].
  rewrite Hhdr. cbn [rbind]. rewrite Hkid. reflexivity.
Qed.

(** C1 (as amended): once the key set has been fetched and parsed, a token
    whose header python-jose cannot read is refused with [invalid_header]
    and 400, and a token whose header reads but has no ["kid"] entry is
    refused with [invalid_header] and 401. *)
Theorem verify_decode_jwt_header_stage
    (token jsonurl : string) (jwks : pyval) :
  urlopen_read P (jwks_url P) = LOk jsonurl ->
  json_loads P jsonurl = LOk jwks ->
  (forall c m,
      jwt_get_unverified_header P token = LRaise c m ->
      issubclass c JWTError = true ->
      verify_decode_jwt P token =
      Raise (AuthError
               {| code := "invalid_header";
                  description := "Error decoding token header: " ++ m |}
               400)) /\
  (forall h,
      jwt_get_unverified_header P token = LOk (PDict h) ->
      lookup "kid" h = None ->
      verify_decode_jwt P token =
      Raise (AuthError
               {| code := "invalid_header";
                  description := "Authorization header is malformed." |}
               401)).
Proof.
  intros Hurl Hjson. split.
  - intros c m Hhdr Hsub. unfold verify_decode_jwt.
    rewrite Hurl. cbn [of_lib rbind]. rewrite Hjson. cbn [of_lib rbind].
    rewrite Hhdr, Hsub. reflexivity.
  - intros h Hhdr Hkid. unfold verify_decode_jwt.
    rewrite Hurl. cbn [of_lib rbind]. rewrite Hjson. cbn [of_lib rbind].
    rewrite Hhdr. cbn [rbind py_in]. rewrite Hkid. reflexivity.
Qed.

(** C2: for a token whose header reads and names a ["kid"], against a
    fetched key set of signing keys: when no key has that ["kid"] the
    verifier raises [invalid_header] / "Unable to find the appropriate key."
    / 400; otherwise the last key with that ["kid"] is handed to
    [jwt.decode], and the verifier returns the claims it decodes, raises
    [token_expired] / 401 when it reports an expired signature, raises
    [invalid_claims] / "Incorrect claims. Check audience and issuer." / 401
    when it reports wrong claims, and raises [invalid_header] / "Unable to
    parse authentication token." / 400 on any other exception. *)
Theorem verify_decode_jwt_after_header
    (token jsonurl : string) (jwks h : list (string * pyval))
    (keys : list pyval) (hkid : pyval) :
  urlopen_read P (jwks_url P) = LOk jsonurl ->
  json_loads P jsonurl = LOk (PDict jwks) ->
  lookup "keys" jwks = Some (PList keys) ->
  forallb is_signing_key keys = true ->
  jwt_get_unverified_header P token = LOk (PDict h) ->
  lookup "kid" h = Some hkid ->
  ((forall key, In key keys -> kid_matches hkid key = false) ->
   verify_decode_jwt P token =
   Raise (AuthError
            {| code := "invalid_header";
               description := "Unable to find the appropriate key." |}
            400)) /\
  (forall key,
      find (kid_matches hkid) (rev keys) = Some key ->
      match jwt_decode P token (rsa_key_of key) (ALGORITHMS P)
              (opt_py (API_AUDIENCE P)) (PStr (issuer P)) with
      | LOk payload => verify_decode_jwt P token = Ok payload
      | LRaise c m =>
          (c = ExpiredSignatureError ->
           verify_decode_jwt P token =
           Raise (AuthError
                    {| code := "token_expired"; description := "Token is expired." |}
                    401)) /\
          (c = JWTClaimsError ->
           verify_decode_jwt P token =
           Raise (AuthError
                    {| code := "invalid_claims";
                       description := "Incorrect claims. Check audience and issuer." |}
                    401)) /\
          (c <> ExpiredSignatureError -> c <> JWTClaimsError ->
           verify_decode_jwt P token =
           Raise (AuthError
                    {| code := "invalid_header";
                       description := "Unable to parse authentication token." |}
                    400))
      end).
Proof.
  intros Hurl Hjson Hkeys Hwf Hhdr Hkid.
  assert (Hin : py_in (PStr "kid") (PDict h) = Ok true).
  { cbn [py_in]. now rewrite Hkid. }
  rewrite (verify_decode_jwt_keys token Hurl Hjson Hhdr Hin).
  cbn [py_getitem]. rewrite Hkeys. cbn [rbind py_iter].
  rewrite (select_rsa_key_signing_keys h keys Hkid Hwf). cbn [rbind].
  split.
  - intros Hnone.
    assert (Hfind : find (kid_matches hkid) (rev keys) = None).
    { apply find_none_iff. intros x Hx. apply Hnone. now apply in_rev. }
    rewrite Hfind. reflexivity.
  - intros key Hfind. rewrite Hfind.
    assert (Hkey : is_signing_key key = true).
    { apply find_some in Hfind as [Hx _]. apply in_rev in Hx.
      exact (proj1 (forallb_forall _ _) Hwf key Hx). }
    rewrite (rsa_key_of_truthy key Hkey).
    destruct (jwt_decode P token (rsa_key_of key) (ALGORITHMS P)
                (opt_py (API_AUDIENCE P)) (PStr (issuer P))) as [payload|c m].
    + reflexivity.
    + repeat split.
      * intros ->. reflexivity.
      * intros ->. reflexivity.
      * intros Hne1 Hne2. destruct c; try reflexivity; congruence.
Qed.

(** C9 (as amended): when the key-set endpoint cannot be read, or what it
    returns is not JSON, [verify_decode_jwt] raises the exception of the
    failed call itself, whatever the token; that exception is not an
    [AuthError], and the application answers it with the 500 failure
    envelope. *)
Theorem verify_decode_jwt_fetch_failure
    (token : string) (c : exn_class) (m : string) :
  (urlopen_read P (jwks_url P) = LRaise c m \/
   exists jsonurl,
     urlopen_read P (jwks_url P) = LOk jsonurl /\
     json_loads P jsonurl = LRaise c m) ->
  verify_decode_jwt P token = Raise (PyExc c m) /\
  (forall error status_code,
      verify_decode_jwt P token <> Raise (AuthError error status_code)) /\
  (forall req (w : World P),
      exists r w',
        handle_user_exception (PyExc c m) req w = (Ok r, w') /\
        status r = 500 /\ is_envelope r = true).
Proof.
  intros H.
  assert (Hv : verify_decode_jwt P token = Raise (PyExc c m)).
  { unfold verify_decode_jwt. destruct H as [Hurl | [jsonurl [Hurl Hjson]]].
    - rewrite Hurl. reflexivity.
    - rewrite Hurl. cbn [of_lib rbind]. rewrite Hjson. reflexivity. }
  repeat split.
  - exact Hv.
  - intros error status_code. rewrite Hv. discriminate.
  - intros req w. eexists. eexists. repeat split.
Qed.

End Verifier.

(** C1 (counterexample): with the identity provider out of reach, a token
    whose header cannot be read is not answered with [invalid_header] and
    400: the fetch, which comes first, raises [URLError]. *)
Lemma verify_decode_jwt_header_stage_needs_key_set :
  ~ (forall (P : Platform) (token : string) (c : exn_class) (m : string),
        jwt_get_unverified_header P token = LRaise c m ->
        issubclass c JWTError = true ->
        exists d,
          verify_decode_jwt P token =
          Raise (AuthError {| code := "invalid_header"; description := d |} 400)).
Proof.
  intros H.
  destruct (H offline "garbage" JWTError "Error decoding token headers."
              eq_refl eq_refl) as [d Hd].
  discriminate Hd.
Qed.

(** C9 (counterexample): with the identity provider out of reach,
    [verify_decode_jwt] does not raise an [AuthError]. *)
Lemma verify_decode_jwt_fetch_failure_not_auth_error :
  ~ (forall (P : Platform) (token : string) (c : exn_class) (m : string),
        urlopen_read P (jwks_url P) = LRaise c m ->
        exists error status_code,
          verify_decode_jwt P token = Raise (AuthError error status_code)).
Proof.
  intros H.
  destruct (H offline "assistant" URLError
              "<urlopen error [Errno 111] Connection refused>" eq_refl)
    as [error [status_code He]].
  discriminate He.
Qed.

(** ** The authorization gate *)

Section Gate.

Variable P : Platform.

(** The wrapper, stage by stage. *)
Lemma requires_auth_steps {Args R : Type} (permission : string)
    (f : pyval -> Args -> M P R) (args : Args) (req : Request) (w : World P) :
  requires_auth permission f args req w =
  match get_token_auth_header req w with
  | (Ok token, w1) =>
      match verify_decode_jwt P token with
      | Ok payload =>
          match check_permissions permission payload with
          | Ok _ => f payload args req w1
          | Raise e => (Raise e, w1)
          end
      | Raise e => (Raise e, w1)
      end
  | (Raise e, w1) => (Raise e, w1)
  end.
Proof.
  unfold requires_auth, bind, lift.
  destruct (get_token_auth_header req w) as [[token|e] w1]; [|reflexivity].
  destruct (verify_decode_jwt P token) as [payload|e]; [|reflexivity].
  destruct (check_permissions permission payload); reflexivity.
Qed.

Lemma requires_auth_passes {Args R : Type} (permission : string)
    (f : pyval -> Args -> M P R) (args : Args) (req : Request) (w w1 : World P)
    (token : string) (payload v : pyval) :
  get_token_auth_header req w = (Ok token, w1) ->
  verify_decode_jwt P token = Ok payload ->
  check_permissions permission payload = Ok v ->
  requires_auth permission f args req w = f payload args req w1.
Proof.
  intros H1 H2 H3. rewrite requires_auth_steps, H1, H2, H3. reflexivity.
Qed.

Lemma requires_auth_stops {Args R : Type} (permission : string)
    (f : pyval -> Args -> M P R) (args : Args) (req : Request) (w w1 : World P)
    (error : auth_error_body) (status_code : Z) :
  stage_raises permission req w error status_code w1 ->
  requires_auth permission f args req w =
  (Raise (AuthError error status_code), w1).
Proof.
  intros H. rewrite requires_auth_steps.
  destruct H as [H1 | token H1 H2 | token payload H1 H2 H3].
  - rewrite H1. reflexivity.
  - rewrite H1, H2. reflexivity.
  - rewrite H1, H2, H3. reflexivity.
Qed.

(** The world a failed stage leaves differs from the one it found by the
    extractor's log line only. *)
Lemma stage_raises_world (permission : string) (req : Request)
    (w w1 : World P) (error : auth_error_body) (status_code : Z) :
  stage_raises permission req w error status_code w1 ->
  w1 = seen w (authorization req).
Proof.
  intros [H1 | token H1 _ | token payload H1 _ _];
    exact (get_token_auth_header_world req w H1).
Qed.

(** Every view but the health check is its handler under [requires_auth]
    with the permission of the table. *)
Lemma view_protected (ep : Endpoint) (permission : string)
    (req : Request) (w w1 : World P)
    (error : auth_error_body) (status_code : Z) :
  required_permission ep = Some permission ->
  stage_raises permission req w error status_code w1 ->
  view ep req w = (Raise (AuthError error status_code), w1).
Proof.
  intros Hperm Hstage.
  destruct ep; cbn [required_permission] in Hperm;
    try discriminate Hperm; inversion Hperm; subst permission;
    cbn [view]; now apply requires_auth_stops.
Qed.

(** C3: when the extraction of the token, its verification or the
    permission check raises an [AuthError], the wrapper raises that same
    error (same code, description and status) whatever the wrapped
    operation is, the tables are as they were, and for every protected
    endpoint the application answers with what the [AuthError] handler
    makes of that error. *)
Theorem requires_auth_error_reaches_boundary
    (permission : string) (req : Request) (w w1 : World P)
    (error : auth_error_body) (status_code : Z) :
  stage_raises permission req w error status_code w1 ->
  (forall (Args R : Type) (f : pyval -> Args -> M P R) (args : Args),
      requires_auth permission f args req w =
      (Raise (AuthError error status_code), w1)) /\
  (actors w1 = actors w /\ movies w1 = movies w) /\
  (forall ep,
      routed req = Matched ep ->
      required_permission ep = Some permission ->
      full_dispatch_request req w =
      (Ok {| body := Json (PDict [("success", PBool false);
                                  ("error", PInt status_code);
                                  ("message", PStr (description error))]);
             status := status_code |}, w1)).
Proof.
  intros Hstage. repeat split.
  - intros Args R f args. now apply requires_auth_stops.
  - rewrite (stage_raises_world Hstage). reflexivity.
  - rewrite (stage_raises_world Hstage). reflexivity.
  - intros ep Hroute Hperm.
    unfold full_dispatch_request, dispatch_request, bind, request.
    rewrite Hroute. rewrite (view_protected ep Hperm Hstage).
    reflexivity.
Qed.

(** C4: for a request whose header is "bearer" and a token, whose token
    verifies to claims whose [permissions] list holds the required
    permission, the wrapper is one call of the wrapped operation on the
    claims followed by the original arguments, in the world the extractor
    left; what that call answers is what the wrapper answers. *)
Theorem requires_auth_invokes_wrapped
    (permission : string) (req : Request) (w : World P)
    (a part0 token : string) (claims : list (string * pyval))
    (l : list pyval) :
  authorization req = Some a ->
  split a = [part0; token] ->
  lower part0 = "bearer" ->
  verify_decode_jwt P token = Ok (PDict claims) ->
  lookup "permissions" claims = Some (PList l) ->
  In (PStr permission) l ->
  forall (Args R : Type) (f : pyval -> Args -> M P R) (args : Args),
    requires_auth permission f args req w =
    f (PDict claims) args req (seen w (Some a)).
Proof.
  intros Hauth Hsplit Hlow Hverify Hperms Hin Args R f args.
  eapply requires_auth_passes.
  - eapply get_token_auth_header_two_parts; eassumption.
  - exact Hverify.
  - eapply check_permissions_granted; eassumption.
Qed.

End Gate.

(** ** The application boundary *)

(** Splits a hypothesis on every [match] it runs through. *)
Ltac crunch H :=
  repeat match type of H with
         | context [match ?x with _ => _ end] => destruct x eqn:?
         end;
  try discriminate H; try (inversion H; subst; reflexivity).

Section Boundary.

Variable P : Platform.

(** A request that passes the gate of a view reaches the handler. *)
Lemma granted_request_passes {Args R : Type} (permission : string)
    (f : pyval -> Args -> M P R) (args : Args) (req : Request) (w : World P)
    (a part0 token : string) (claims : list (string * pyval))
    (l : list pyval) :
  authorization req = Some a ->
  split a = [part0; token] ->
  lower part0 = "bearer" ->
  verify_decode_jwt P token = Ok (PDict claims) ->
  lookup "permissions" claims = Some (PList l) ->
  In (PStr permission) l ->
  requires_auth permission f args req w =
  f (PDict claims) args req (seen w (Some a)).
Proof.
  intros Hauth Hsplit Hlow Hverify Hperms Hin.
  eapply requires_auth_passes.
  - eapply get_token_auth_header_two_parts; eassumption.
  - exact Hverify.
  - eapply check_permissions_granted; eassumption.
Qed.






(** C10: a GET /actors request with a valid token that grants
    [get:actors] is answered, when the actors table is empty, with the 404
    failure envelope "resource not found" and not with a 200 and an empty
    list; likewise GET /movies with [get:movies] on an empty movies
    table. *)
Theorem get_on_empty_table_is_not_found
    (req : Request) (w : World P) (a part0 token : string)
    (claims : list (string * pyval)) (l : list pyval) :
  authorization req = Some a ->
  split a = [part0; token] ->
  lower part0 = "bearer" ->
  verify_decode_jwt P token = Ok (PDict claims) ->
  lookup "permissions" claims = Some (PList l) ->
  (routed req = Matched get_actors_ep ->
   In (PStr "get:actors") l ->
   actors w = [] ->
   full_dispatch_request req w =
   (Ok {| body := Json (PDict [("success", PBool false); ("error", PInt 404);
                               ("message", PStr "resource not found")]);
          status := 404 |},
    seen w (Some a))) /\
  (routed req = Matched get_movies_ep ->
   In (PStr "get:movies") l ->
   movies w = [] ->
   full_dispatch_request req w =
   (Ok {| body := Json (PDict [("success", PBool false); ("error", PInt 404);
                               ("message", PStr "resource not found")]);
          status := 404 |},
    seen w (Some a))).
Proof.
  intros Hauth Hsplit Hlow Hverify Hperms. split.
  - intros Hroute Hin Hempty.
    unfold full_dispatch_request, dispatch_request, bind at 1, request.
    rewrite Hroute. cbn [view].
    erewrite granted_request_passes by eassumption.
    unfold get_actors, bind, Actor_query_all.
    change (actors (seen w (Some a))) with (actors w).
    rewrite Hempty. reflexivity.
  - intros Hroute Hin Hempty.
    unfold full_dispatch_request, dispatch_request, bind at 1, request.
    rewrite Hroute. cbn [view].
    erewrite granted_request_passes by eassumption.
    unfold get_movies, bind, Movie_query_all.
    change (movies (seen w (Some a))) with (movies w).
    rewrite Hempty. reflexivity.
Qed.

(** C8 (the code at a request its own tests send): a POST /actors request
    with a valid token that grants [post:actors] and a body that is empty
    (or absent) is aborted with 400, an error for which no handler is
    registered; the answer is the framework's own error page, not a JSON
    object with a [success] field. *)
Theorem create_actor_without_data_is_not_enveloped
    (req : Request) (w : World P) (a part0 token : string)
    (claims : list (string * pyval)) (l : list pyval) (data : pyval) :
  routed req = Matched create_actor_ep ->
  authorization req = Some a ->
  split a = [part0; token] ->
  lower part0 = "bearer" ->
  verify_decode_jwt P token = Ok (PDict claims) ->
  lookup "permissions" claims = Some (PList l) ->
  In (PStr "post:actors") l ->
  get_json req = Ok data ->
  py_truthy data = false ->
  full_dispatch_request req w =
  (Ok {| body := Html "Bad request, no data provided"; status := 400 |},
   seen w (Some a)) /\
  is_envelope {| body := Html "Bad request, no data provided"; status := 400 |}
  = false.
Proof.
  intros Hroute Hauth Hsplit Hlow Hverify Hperms Hin Hjson Hfalsy.
  split; [|reflexivity].
  unfold full_dispatch_request, dispatch_request, bind at 1, request.
  rewrite Hroute. cbn [view].
  erewrite granted_request_passes by eassumption.
  unfold create_actor, bind, request, lift.
  rewrite Hjson, Hfalsy. reflexivity.
Qed.

End Boundary.

(** ** The theorems at work on the two platforms *)

(** The header stage on the [online] platform. *)
Lemma verify_decode_jwt_header_stage_witness :
  verify_decode_jwt online "garbage" =
  Raise (AuthError
           {| code := "invalid_header";
              description :=
                "Error decoding token header: Error decoding token headers." |}
           400) /\
  verify_decode_jwt online "nokid" =
  Raise (AuthError
           {| code := "invalid_header";
              description := "Authorization header is malformed." |}
           401).
Proof.
  split.
  - destruct (@verify_decode_jwt_header_stage online "garbage" _ _
                eq_refl eq_refl) as [H _].
    exact (H JWTError "Error decoding token headers." eq_refl eq_refl).
  - destruct (@verify_decode_jwt_header_stage online "nokid" _ _
                eq_refl eq_refl) as [_ H].
    exact (H _ eq_refl eq_refl).
Defined.

(** The five outcomes after the header stage, on the [online] platform. *)
Lemma verify_decode_jwt_after_header_witness :
  verify_decode_jwt online "stranger" =
  Raise (AuthError
           {| code := "invalid_header";
              description := "Unable to find the appropriate key." |}
           400) /\
  verify_decode_jwt online "expired" =
  Raise (AuthError
           {| code := "token_expired"; description := "Token is expired." |}
           401) /\
  verify_decode_jwt online "wrongaud" =
  Raise (AuthError
           {| code := "invalid_claims";
              description := "Incorrect claims. Check audience and issuer." |}
           401) /\
  verify_decode_jwt online "badsig" =
  Raise (AuthError
           {| code := "invalid_header";
              description := "Unable to parse authentication token." |}
           400) /\
  verify_decode_jwt online "assistant" =
  Ok (example_claims ["get:actors"; "get:movies"]).
Proof.
  split; [|split; [|split; [|split]]].
  - destruct (@verify_decode_jwt_after_header online "stranger" _ _ _ _ _
                eq_refl eq_refl eq_refl eq_refl eq_refl eq_refl) as [H _].
    apply H. intros key [<- | [<- | []]]; reflexivity.
  - destruct (@verify_decode_jwt_after_header online "expired" _ _ _ _ _
                eq_refl eq_refl eq_refl eq_refl eq_refl eq_refl) as [_ H].
    destruct (H _ eq_refl) as [H1 _]. exact (H1 eq_refl).
  - destruct (@verify_decode_jwt_after_header online "wrongaud" _ _ _ _ _
                eq_refl eq_refl eq_refl eq_refl eq_refl eq_refl) as [_ H].
    destruct (H _ eq_refl) as [_ [H2 _]]. exact (H2 eq_refl).
  - destruct (@verify_decode_jwt_after_header online "badsig" _ _ _ _ _
                eq_refl eq_refl eq_refl eq_refl eq_refl eq_refl) as [_ H].
    destruct (H _ eq_refl) as [_ [_ H3]]. apply H3; discriminate.
  - destruct (@verify_decode_jwt_after_header online "assistant" _ _ _ _ _
                eq_refl eq_refl eq_refl eq_refl eq_refl eq_refl) as [_ H].
    exact (H _ eq_refl).
Defined.

(** An assistant asks to delete an actor: the permission check raises, and
    the answer is the 403 envelope. *)
Lemma requires_auth_error_reaches_boundary_witness :
  let req := example_request (Matched (delete_actor_ep 7))
               (Some "Bearer assistant") (Ok PNone) in
  let w := empty_world online in
  stage_raises "delete:actors" req w
    {| code := "unauthorized"; description := "Permission not found." |} 403
    (seen w (Some "Bearer assistant")) /\
  requires_auth "delete:actors" (@delete_actor online) 7 req w =
  (Raise (AuthError
            {| code := "unauthorized"; description := "Permission not found." |}
            403),
   seen w (Some "Bearer assistant")) /\
  full_dispatch_request req w =
  (Ok {| body := Json (PDict [("success", PBool false); ("error", PInt 403);
                              ("message", PStr "Permission not found.")]);
         status := 403 |},
   seen w (Some "Bearer assistant")).
Proof.
  intros req w.
  assert (Hstage : stage_raises "delete:actors" req w
                     {| code := "unauthorized";
                        description := "Permission not found." |} 403
                     (seen w (Some "Bearer assistant"))).
  { apply (@permission_check_raises online "delete:actors" req w _ _ _
             "assistant" (example_claims ["get:actors"; "get:movies"]));
      reflexivity. }
  destruct (requires_auth_error_reaches_boundary Hstage) as [H1 [_ H3]].
  split; [exact Hstage|]. split.
  - exact (H1 Z Response (@delete_actor online) 7).
  - exact (H3 (delete_actor_ep 7) eq_refl eq_refl).
Defined.

(** An assistant lists the actors: the wrapper is the call of
    [get_actors] on the claims. *)
Lemma requires_auth_invokes_wrapped_witness :
  let req := example_request (Matched get_actors_ep)
               (Some "Bearer assistant") (Ok PNone) in
  let w := empty_world online in
  requires_auth "get:actors" (@get_actors online) tt req w =
  get_actors (example_claims ["get:actors"; "get:movies"]) tt req
    (seen w (Some "Bearer assistant")).
Proof.
  intros req w.
  apply (@requires_auth_invokes_wrapped online "get:actors" req w
           "Bearer assistant" "Bearer" "assistant" _
           [PStr "get:actors"; PStr "get:movies"]
           eq_refl eq_refl eq_refl eq_refl eq_refl).
  simpl. left. reflexivity.
Defined.

(** Headers of three spaces and of one no-break space. *)
Lemma get_token_auth_header_blank_witness :
  let req := example_request (Matched get_actors_ep) (Some "   ") (Ok PNone) in
  let req' := example_request (Matched get_actors_ep) (Some nbsp) (Ok PNone) in
  let w := empty_world online in
  all_space "   " = true /\
  get_token_auth_header req w =
  (Raise (PyExc IndexError "list index out of range"), seen w (Some "   ")) /\
  get_token_auth_header req' w =
  (Raise (PyExc IndexError "list index out of range"), seen w (Some nbsp)).
Proof.
  intros req req' w. split; [reflexivity|]. split.
  - apply (@get_token_auth_header_blank online req w "   " eq_refl).
    + discriminate.
    + reflexivity.
  - apply (@get_token_auth_header_blank online req' w nbsp eq_refl).
    + discriminate.
    + reflexivity.
Defined.

(** Headers of one, three and two parts. *)
Lemma get_token_auth_header_bearer_witness :
  let w := empty_world online in
  let r1 := example_request (Matched get_actors_ep) (Some "Bearer") (Ok PNone) in
  let r2 := example_request (Matched get_actors_ep)
              (Some "bearer abc def") (Ok PNone) in
  let r3 := example_request (Matched get_actors_ep)
              (Some " BEARER  abc.def.ghi ") (Ok PNone) in
  get_token_auth_header r1 w =
  (Raise (AuthError
            {| code := "invalid_header"; description := "Token not found." |}
            401),
   seen w (Some "Bearer")) /\
  get_token_auth_header r2 w =
  (Raise (AuthError
            {| code := "invalid_header";
               description := "Authorization header must be 'Bearer <token>'." |}
            401),
   seen w (Some "bearer abc def")) /\
  get_token_auth_header r3 w =
  (Ok "abc.def.ghi", seen w (Some " BEARER  abc.def.ghi ")).
Proof.
  intros w r1 r2 r3. split; [|split].
  - destruct (@get_token_auth_header_bearer online r1 w "Bearer" "Bearer" []
                eq_refl eq_refl eq_refl) as [H _].
    exact (H eq_refl).
  - destruct (@get_token_auth_header_bearer online r2 w "bearer abc def"
                "bearer" ["abc"; "def"] eq_refl eq_refl eq_refl) as [_ [H _]].
    apply H. simpl. lia.
  - destruct (@get_token_auth_header_bearer online r3 w " BEARER  abc.def.ghi "
                "BEARER" ["abc.def.ghi"] eq_refl eq_refl eq_refl) as [_ [_ H]].
    exact (H "abc.def.ghi" eq_refl).
Defined.

(** Claims without permissions, without and with the required
    permission. *)
Lemma check_permissions_cases_witness :
  let req := example_request (Matched get_actors_ep)
               (Some "Bearer assistant") (Ok PNone) in
  let w := empty_world online in
  lift (check_permissions "get:actors" (PDict [("aud", PStr "casting")])) req w =
  (Raise (AuthError
            {| code := "invalid_claims";
               description := "Permissions not included in JWT." |}
            403), w) /\
  lift (check_permissions "post:actors"
          (example_claims ["get:actors"; "get:movies"])) req w =
  (Raise (AuthError
            {| code := "unauthorized"; description := "Permission not found." |}
            403), w) /\
  lift (check_permissions "get:movies"
          (example_claims ["get:actors"; "get:movies"])) req w =
  (Ok (PBool true), w).
Proof.
  intros req w. split; [|split].
  - destruct (@check_permissions_cases online "get:actors"
                [("aud", PStr "casting")] req w) as [H _].
    exact (H eq_refl).
  - destruct (@check_permissions_cases online "post:actors"
                [("iss", PStr "https://agency.example.com/");
                 ("aud", PStr "casting"); ("exp", PInt 1900000000);
                 ("permissions", PList [PStr "get:actors"; PStr "get:movies"])]
                req w) as [_ [H _]].
    apply (H _ eq_refl). simpl. intros [E | [E | []]]; discriminate E.
  - destruct (@check_permissions_cases online "get:movies"
                [("iss", PStr "https://agency.example.com/");
                 ("aud", PStr "casting"); ("exp", PInt 1900000000);
                 ("permissions", PList [PStr "get:actors"; PStr "get:movies"])]
                req w) as [_ [_ H]].
    apply (H _ eq_refl). simpl. right. left. reflexivity.
Defined.

(** A director posts the empty object to /actors. *)
Lemma create_actor_without_data_is_not_enveloped_witness :
  let req := example_request (Matched create_actor_ep)
               (Some "Bearer director") (Ok (PDict [])) in
  let w := empty_world online in
  full_dispatch_request req w =
  (Ok {| body := Html "Bad request, no data provided"; status := 400 |},
   seen w (Some "Bearer director")) /\
  is_envelope {| body := Html "Bad request, no data provided"; status := 400 |}
  = false.
Proof.
  intros req w.
  apply (@create_actor_without_data_is_not_enveloped online req w
           "Bearer director" "Bearer" "director" _
           [PStr "get:actors"; PStr "get:movies"; PStr "post:actors";
            PStr "patch:actors"; PStr "patch:movies"; PStr "delete:actors"]
           (PDict []) eq_refl eq_refl eq_refl eq_refl eq_refl eq_refl).
  - simpl. right. right. left. reflexivity.
  - reflexivity.
  - reflexivity.
Defined.

(** Verification on the [offline] platform. *)
Lemma verify_decode_jwt_fetch_failure_witness :
  urlopen_read offline (jwks_url offline) =
  LRaise URLError "<urlopen error [Errno 111] Connection refused>" /\
  verify_decode_jwt offline "assistant" =
  Raise (PyExc URLError "<urlopen error [Errno 111] Connection refused>").
Proof.
  split; [reflexivity|].
  apply (@verify_decode_jwt_fetch_failure offline "assistant" URLError
           "<urlopen error [Errno 111] Connection refused>").
  left. reflexivity.
Defined.

(** An assistant lists the actors and the movies of an empty database. *)
Lemma get_on_empty_table_is_not_found_witness :
  let w := empty_world online in
  let r1 := example_request (Matched get_actors_ep)
              (Some "Bearer assistant") (Ok PNone) in
  let r2 := example_request (Matched get_movies_ep)
              (Some "Bearer assistant") (Ok PNone) in
  full_dispatch_request r1 w =
  (Ok {| body := Json (PDict [("success", PBool false); ("error", PInt 404);
                              ("message", PStr "resource not found")]);
         status := 404 |},
   seen w (Some "Bearer assistant")) /\
  full_dispatch_request r2 w =
  (Ok {| body := Json (PDict [("success", PBool false); ("error", PInt 404);
                              ("message", PStr "resource not found")]);
         status := 404 |},
   seen w (Some "Bearer assistant")).
Proof.
  intros w r1 r2. split.
  - destruct (@get_on_empty_table_is_not_found online r1 w
                "Bearer assistant" "Bearer" "assistant" _
                [PStr "get:actors"; PStr "get:movies"]
                eq_refl eq_refl eq_refl eq_refl eq_refl) as [H _].
    apply H; [reflexivity | simpl; left; reflexivity | reflexivity].
  - destruct (@get_on_empty_table_is_not_found online r2 w
                "Bearer assistant" "Bearer" "assistant" _
                [PStr "get:actors"; PStr "get:movies"]
                eq_refl eq_refl eq_refl eq_refl eq_refl) as [_ H].
    apply H; [reflexivity | simpl; right; left; reflexivity | reflexivity].
Defined.

(** * Further properties *)

(** ** Text *)

Lemma no_space_app_one (s : string) (a : ascii) :
  no_space (s ++ String a EmptyString) = no_space s && negb (is_space a).
Proof.
  induction s as [|b s IH]; simpl.
  - now rewrite andb_true_r.
  - rewrite IH. now rewrite andb_assoc.
Qed.

(** Every part [split] gives is a non-empty text without white space. *)
Lemma split_from_parts (s : string) :
  forall cur,
    no_space cur = true ->
    Forall (fun p => p <> EmptyString /\ no_space p = true) (split_from cur s).
Proof.
  induction s as [|a s IH]; simpl; intros cur Hcur.
  - destruct cur; constructor; [|constructor].
    split; [discriminate | exact Hcur].
  - destruct (is_space a) eqn:Ha.
    + destruct cur.
      * apply IH. reflexivity.
      * constructor; [split; [discriminate | exact Hcur]|].
        apply IH. reflexivity.
    + apply IH. rewrite no_space_app_one, Hcur, Ha. reflexivity.
Qed.

Lemma split_parts (s : string) :
  Forall (fun p => p <> EmptyString /\ no_space p = true) (split s).
Proof. apply split_from_parts. reflexivity. Qed.

(** ** The token extractor, further *)

Section ExtractorFurther.

Variable P : Platform.

(** X2: when [get_token_auth_header] returns a token, the header is there,
    splits into exactly two parts of which the first is "bearer" in some
    case of letters and the second is the token; the token is not empty
    and holds no white space; the world has gained the log line only. *)
Theorem get_token_auth_header_returns
    (req : Request) (w w1 : World P) (token : string) :
  get_token_auth_header req w = (Ok token, w1) ->
  exists a part0,
    authorization req = Some a /\
    split a = [part0; token] /\
    lower part0 = "bearer" /\
    token <> EmptyString /\ no_space token = true /\
    w1 = seen w (Some a).
Proof.
  intros H.
  destruct (authorization req) as [a|] eqn:Hauth.
  - destruct (string_dec a EmptyString) as [-> | Hne].
    + rewrite (get_token_auth_header_missing req w (or_intror Hauth)) in H.
      discriminate H.
    + rewrite (get_token_auth_header_parts req w Hauth Hne) in H.
      cbv zeta in H.
      pose proof (split_parts a) as Hparts.
      destruct (split a) as [|part0 [|t [|t' rest]]] eqn:Hsplit;
        cbn [list_getitem nth_error length] in H.
      * discriminate H.
      * destruct (negb (String.eqb (lower part0) "bearer")); discriminate H.
      * destruct (String.eqb (lower part0) "bearer") eqn:Hlow;
          cbn [negb Nat.eqb Nat.ltb Nat.leb] in H; [|discriminate H].
        inversion H; subst. exists a, part0.
        apply String.eqb_eq in Hlow.
        inversion Hparts as [|? ? _ Htl]; subst.
        inversion Htl as [|? ? [Hn Hs] _]; subst.
        repeat split; auto.
      * destruct (negb (String.eqb (lower part0) "bearer")); discriminate H.
  - rewrite (get_token_auth_header_missing req w (or_introl Hauth)) in H.
    discriminate H.
Qed.

(** X3: an [AuthError] out of [get_token_auth_header] always has status
    401, and its code is [authorization_header_missing] or
    [invalid_header]. *)
Theorem get_token_auth_header_error_status
    (req : Request) (w w1 : World P)
    (error : auth_error_body) (status_code : Z) :
  get_token_auth_header req w = (Raise (AuthError error status_code), w1) ->
  status_code = 401 /\
  (code error = "authorization_header_missing" \/ code error = "invalid_header").
Proof.
  intros H.
  destruct (authorization req) as [a|] eqn:Hauth.
  - destruct (string_dec a EmptyString) as [-> | Hne].
    + rewrite (get_token_auth_header_missing req w (or_intror Hauth)) in H.
      inversion H; subst. auto.
    + rewrite (get_token_auth_header_parts req w Hauth Hne) in H.
      cbv zeta in H.
      destruct (list_getitem (split a) 0) as [part0|e] eqn:H0.
      * destruct (negb (String.eqb (lower part0) "bearer"));
          [inversion H; subst; auto|].
        destruct (Nat.eqb (length (split a)) 1); [inversion H; subst; auto|].
        destruct (Nat.ltb 2 (length (split a))); [inversion H; subst; auto|].
        unfold list_getitem in H.
        destruct (nth_error (split a) 1); inversion H.
      * unfold list_getitem in H0.
        destruct (nth_error (split a) 0); inversion H0; subst.
        inversion H.
  - rewrite (get_token_auth_header_missing req w (or_introl Hauth)) in H.
    inversion H; subst. auto.
Qed.

End ExtractorFurther.

(** ** The token verifier and the permission enforcer, further *)

Lemma py_in_raises {x c : pyval} {e : exn} :
  py_in x c = Raise e -> exists cls m, e = PyExc cls m.
Proof.
  unfold py_in. destruct c; try destruct x; intros H; inversion H; eauto.
Qed.

Lemma py_getitem_raises {c : pyval} {k : string} {e : exn} :
  py_getitem c k = Raise e -> exists cls m, e = PyExc cls m.
Proof.
  unfold py_getitem. destruct c; try destruct (lookup k d);
    intros H; inversion H; eauto.
Qed.

Lemma py_iter_raises {c : pyval} {e : exn} :
  py_iter c = Raise e -> exists cls m, e = PyExc cls m.
Proof. unfold py_iter. destruct c; intros H; inversion H; eauto. Qed.

(** Whatever the key set holds, the loop over it raises no [AuthError]. *)
Lemma select_rsa_key_raises (keys : list pyval) (h : pyval) :
  forall rsa_key e,
    select_rsa_key keys h rsa_key = Raise e -> exists cls m, e = PyExc cls m.
Proof.
  induction keys as [|key rest IH]; intros rsa_key e H.
  - discriminate H.
  - cbn [select_rsa_key] in H.
    destruct (py_getitem key "kid") as [kid|e1] eqn:E1;
      [|inversion H; subst; exact (py_getitem_raises E1)].
    cbn [rbind] in H.
    destruct (py_getitem h "kid") as [hkid|e2] eqn:E2;
      [|inversion H; subst; exact (py_getitem_raises E2)].
    cbn [rbind] in H.
    destruct (py_eq kid hkid); [|exact (IH _ _ H)].
    destruct (py_getitem key "kty") as [kty|e3] eqn:E3;
      [|inversion H; subst; exact (py_getitem_raises E3)].
    cbn [rbind] in H.
    destruct (py_getitem key "use") as [use|e4] eqn:E4;
      [|inversion H; subst; exact (py_getitem_raises E4)].
    cbn [rbind] in H.
    destruct (py_getitem key "n") as [n|e5] eqn:E5;
      [|inversion H; subst; exact (py_getitem_raises E5)].
    cbn [rbind] in H.
    destruct (py_getitem key "e") as [ee|e6] eqn:E6;
      [|inversion H; subst; exact (py_getitem_raises E6)].
    cbn [rbind] in H.
    exact (IH _ _ H).
Qed.

(** The loop goes through a list of keys part by part. *)
Lemma select_rsa_key_app (pre post : list pyval) (h : pyval) :
  forall rsa_key,
    select_rsa_key (pre ++ post) h rsa_key =
    (r <- select_rsa_key pre h rsa_key ;; select_rsa_key post h r)%result.
Proof.
  induction pre as [|key pre IH]; intros rsa_key.
  - reflexivity.
  - cbn [app select_rsa_key].
    destruct (py_getitem key "kid") as [kid|]; [|reflexivity]. cbn [rbind].
    destruct (py_getitem h "kid") as [hkid|]; [|reflexivity]. cbn [rbind].
    destruct (py_eq kid hkid); [|apply IH].
    destruct (py_getitem key "kty") as [kty|]; [|reflexivity]. cbn [rbind].
    destruct (py_getitem key "use") as [use|]; [|reflexivity]. cbn [rbind].
    destruct (py_getitem key "n") as [n|]; [|reflexivity]. cbn [rbind].
    destruct (py_getitem key "e") as [ee|]; [|reflexivity]. cbn [rbind].
    apply IH.
Qed.

Section VerifierFurther.

Variable P : Platform.

(** X4: on every platform and for every token, an [AuthError] out of
    [verify_decode_jwt] is [invalid_header] with status 400 or 401,
    [token_expired] with 401, or [invalid_claims] with 401. *)
Theorem verify_decode_jwt_error_status
    (token : string) (error : auth_error_body) (status_code : Z) :
  verify_decode_jwt P token = Raise (AuthError error status_code) ->
  (code error = "invalid_header" /\ (status_code = 400 \/ status_code = 401)) \/
  (code error = "token_expired" /\ status_code = 401) \/
  (code error = "invalid_claims" /\ status_code = 401).
Proof.
  unfold verify_decode_jwt. intros H.
  destruct (urlopen_read P (jwks_url P)) as [jsonurl|c m];
    [|discriminate H].
  cbn [of_lib rbind] in H.
  destruct (json_loads P jsonurl) as [jwks|c m]; [|discriminate H].
  cbn [of_lib rbind] in H.
  destruct (jwt_get_unverified_header P token) as [h|c m].
  - cbn [rbind] in H.
    destruct (py_in (PStr "kid") h) as [has_kid|e] eqn:E1.
    + cbn [rbind] in H. destruct has_kid; cbn [negb] in H.
      * destruct (py_getitem jwks "keys") as [keys_v|e] eqn:E2.
        -- cbn [rbind] in H.
           destruct (py_iter keys_v) as [keys|e] eqn:E3.
           ++ cbn [rbind] in H.
              destruct (select_rsa_key keys h (PDict [])) as [rsa_key|e] eqn:E4.
              ** cbn [rbind] in H.
                 destruct (py_truthy rsa_key).
                 --- destruct (jwt_decode P token rsa_key (ALGORITHMS P)
                                 (opt_py (API_AUDIENCE P)) (PStr (issuer P)))
                       as [payload|c m]; [discriminate H|].
                     destruct (issubclass c ExpiredSignatureError);
                       [inversion H; subst; auto|].
                     destruct (issubclass c JWTClaimsError);
                       inversion H; subst; auto.
                 --- inversion H; subst; auto.
              ** cbn [rbind] in H. inversion H; subst.
                 destruct (select_rsa_key_raises _ _ _ E4) as [? [? ?]].
                 discriminate.
           ++ cbn [rbind] in H. inversion H; subst.
              destruct (py_iter_raises E3) as [? [? ?]]. discriminate.
        -- cbn [rbind] in H. inversion H; subst.
           destruct (py_getitem_raises E2) as [? [? ?]]. discriminate.
      * inversion H; subst; auto.
    + cbn [rbind] in H. inversion H; subst.
      destruct (py_in_raises E1) as [? [? ?]]. discriminate.
  - destruct (issubclass c JWTError); cbn [rbind] in H;
      inversion H; subst; auto.
Qed.

(** X6: a key-set entry without ["kid"] that comes after signing keys
    only makes the verifier raise [KeyError], for every token whose header
    names a ["kid"], whether or not a published key matches; so does the
    first matching entry that has no ["use"]. *)
Theorem verify_decode_jwt_malformed_key
    (token jsonurl : string) (jwks h d : list (string * pyval))
    (pre post : list pyval) (hkid : pyval) :
  urlopen_read P (jwks_url P) = LOk jsonurl ->
  json_loads P jsonurl = LOk (PDict jwks) ->
  lookup "keys" jwks = Some (PList (pre ++ PDict d :: post)) ->
  forallb is_signing_key pre = true ->
  jwt_get_unverified_header P token = LOk (PDict h) ->
  lookup "kid" h = Some hkid ->
  (lookup "kid" d = None ->
   verify_decode_jwt P token = Raise (PyExc KeyError "kid")) /\
  (forall kid kty,
      lookup "kid" d = Some kid -> py_eq kid hkid = true ->
      lookup "kty" d = Some kty -> lookup "use" d = None ->
      verify_decode_jwt P token = Raise (PyExc KeyError "use")).
Proof.
  intros Hurl Hjson Hkeys Hwf Hhdr Hkid.
  assert (Hin : py_in (PStr "kid") (PDict h) = Ok true).
  { cbn [py_in]. now rewrite Hkid. }
  rewrite (@verify_decode_jwt_keys P token _ _ _ Hurl Hjson Hhdr Hin).
  cbn [py_getitem]. rewrite Hkeys. cbn [rbind py_iter].
  rewrite select_rsa_key_app.
  rewrite (select_rsa_key_signing_keys h pre Hkid Hwf). cbn [rbind].
  cbn [select_rsa_key py_getitem]. split.
  - intros Hnone. rewrite Hnone. reflexivity.
  - intros kid kty Hk Heq Hkty Huse.
    rewrite Hk. cbn [rbind]. rewrite Hkid. cbn [rbind].
    rewrite Heq, Hkty. cbn [rbind]. rewrite Huse. reflexivity.
Qed.

End VerifierFurther.

(** X5: for every permission and every payload, of any shape, an
    [AuthError] out of [check_permissions] has status 403 and code
    [invalid_claims] or [unauthorized], and the only value returned is
    [True]. *)
Theorem check_permissions_outcomes (permission : string) (payload : pyval) :
  (forall error status_code,
      check_permissions permission payload =
      Raise (AuthError error status_code) ->
      status_code = 403 /\
      (code error = "invalid_claims" \/ code error = "unauthorized")) /\
  (forall v, check_permissions permission payload = Ok v -> v = PBool true).
Proof.
  unfold check_permissions.
  destruct (py_in (PStr "permissions") payload) as [present|e] eqn:E1.
  - cbn [rbind]. destruct present; cbn [negb].
    + destruct (py_getitem payload "permissions") as [perms|e] eqn:E2.
      * cbn [rbind].
        destruct (py_in (PStr permission) perms) as [granted|e] eqn:E3.
        -- cbn [rbind]. destruct granted; cbn [negb]; split;
             intros; try discriminate; inversion H; subst; auto.
        -- cbn [rbind]. split; intros; [|discriminate].
           inversion H; subst.
           destruct (py_in_raises E3) as [? [? ?]]. discriminate.
      * cbn [rbind]. split; intros; [|discriminate].
        inversion H; subst.
        destruct (py_getitem_raises E2) as [? [? ?]]. discriminate.
    + split; intros; [|discriminate]. inversion H; subst; auto.
  - cbn [rbind]. split; intros; [|discriminate].
    inversion H; subst.
    destruct (py_in_raises E1) as [? [? ?]]. discriminate.
Qed.

(** X7: when the [permissions] entry of the claims is not a list:
    [null], a boolean or a number make [check_permissions] raise
    [TypeError]; a text grants every permission that is a piece of it; an
    object grants the permissions that are among its keys. *)
Theorem check_permissions_other_shapes
    (permission : string) (claims : list (string * pyval)) :
  (forall v,
      lookup "permissions" claims = Some v ->
      (v = PNone \/ (exists b, v = PBool b) \/ (exists z, v = PInt z)) ->
      check_permissions permission (PDict claims) =
      Raise (PyExc TypeError "argument is not iterable")) /\
  (forall s,
      lookup "permissions" claims = Some (PStr s) ->
      is_substring permission s = true ->
      check_permissions permission (PDict claims) = Ok (PBool true)) /\
  (forall d v,
      lookup "permissions" claims = Some (PDict d) ->
      lookup permission d = Some v ->
      check_permissions permission (PDict claims) = Ok (PBool true)).
Proof.
  split; [|split].
  - intros v Hl Hv. unfold check_permissions.
    cbn [py_in py_getitem rbind]. rewrite Hl. cbn [negb rbind].
    destruct Hv as [-> | [[b ->] | [z ->]]]; reflexivity.
  - intros s Hl Hsub.
    rewrite (check_permissions_container permission claims Hl
               (granted := true)); [reflexivity|].
    cbn [py_in]. now rewrite Hsub.
  - intros d v Hl Hd.
    rewrite (check_permissions_container permission claims Hl
               (granted := true)); [reflexivity|].
    cbn [py_in]. now rewrite Hd.
Qed.

(** ** The application, further *)

(** Splits a hypothesis on every [match] it runs through and compares the
    tables of the two worlds it ends with. *)
Ltac crunch_tables H :=
  repeat (cbv beta iota in H;
          match type of H with
          | context [match ?x with _ => _ end] =>
              lazymatch x with
              | context [match _ with _ => _ end] => fail
              | _ => destruct x eqn:?
              end
          end);
  cbv beta iota in H;
  try discriminate H; inversion H; subst; repeat split; reflexivity.

Section BoundaryFurther.

Variable P : Platform.

Lemma same_tables_refl (w : World P) : same_tables w w.
Proof. repeat split. Qed.

Lemma same_tables_trans (w1 w2 w3 : World P) :
  same_tables w1 w2 -> same_tables w2 w3 -> same_tables w1 w3.
Proof.
  unfold same_tables. intros [A1 [B1 [C1 D1]]] [A2 [B2 [C2 D2]]].
  repeat split; congruence.
Qed.

Lemma seen_same_tables (w : World P) (auth : option string) :
  same_tables w (seen w auth).
Proof. repeat split. Qed.

(** The error handlers write to the log at most. *)
Lemma handle_user_exception_tables
    (e : exn) (req : Request) (w w' : World P) (x : result Response) :
  handle_user_exception e req w = (x, w') -> same_tables w w'.
Proof.
  unfold handle_user_exception, internal_server_error, bind, logging, ret.
  intros H. crunch_tables H.
Qed.

Lemma requires_auth_raise_tables {Args : Type}
    (f : pyval -> Args -> M P Response) :
  (forall payload args req w e w',
      f payload args req w = (Raise e, w') -> same_tables w w') ->
  forall permission args req w e w',
    requires_auth permission f args req w = (Raise e, w') -> same_tables w w'.
Proof.
  intros Hf permission args req w e w' H.
  rewrite requires_auth_steps in H.
  destruct (get_token_auth_header req w) as [[token|e0] w1] eqn:Hg;
    pose proof (get_token_auth_header_world req w Hg) as Hw1; subst w1.
  - destruct (verify_decode_jwt P token) as [payload|e1].
    + destruct (check_permissions permission payload).
      * eapply same_tables_trans; [apply seen_same_tables|].
        exact (Hf _ _ _ _ _ _ H).
      * inversion H; subst. apply seen_same_tables.
    + inversion H; subst. apply seen_same_tables.
  - inversion H; subst. apply seen_same_tables.
Qed.

(** A view that raises has left the tables alone. *)
Lemma view_raise_tables
    (ep : Endpoint) (req : Request) (w w' : World P) (e : exn) :
  view ep req w = (Raise e, w') -> same_tables w w'.
Proof.
  destruct ep; cbn [view].
  - intros H; inversion H.
  - apply requires_auth_raise_tables. intros payload args rq w0 e0 w0' H.
    unfold get_actors, bind, Actor_query_all, abort, raise, ret in H.
    crunch_tables H.
  - apply requires_auth_raise_tables. intros payload args rq w0 e0 w0' H.
    unfold get_movies, bind, Movie_query_all, abort, raise, ret in H.
    crunch_tables H.
  - apply requires_auth_raise_tables. intros payload args rq w0 e0 w0' H.
    unfold create_actor, Actor_insert, bind, request, lift, get_world,
      put_world, abort, raise, ret in H.
    crunch_tables H.
  - apply requires_auth_raise_tables. intros payload args rq w0 e0 w0' H.
    unfold create_movie, Movie_insert, bind, request, lift, get_world,
      put_world, abort, raise, ret in H.
    crunch_tables H.
  - apply requires_auth_raise_tables. intros payload args rq w0 e0 w0' H.
    unfold update_actor, Actor_update, Actor_query_get, assign_if_present,
      bind, request, lift, get_world, put_world, abort, raise, ret in H.
    crunch_tables H.
  - apply requires_auth_raise_tables. intros payload args rq w0 e0 w0' H.
    unfold update_movie, Movie_update, Movie_query_get, assign_if_present,
      bind, request, lift, get_world, put_world, abort, raise, ret in H.
    crunch_tables H.
  - apply requires_auth_raise_tables. intros payload args rq w0 e0 w0' H.
    unfold delete_actor, Actor_delete, Actor_query_get, bind, request, lift,
      get_world, put_world, abort, raise, ret in H.
    crunch_tables H.
  - apply requires_auth_raise_tables. intros payload args rq w0 e0 w0' H.
    unfold delete_movie, Movie_delete, Movie_query_get, bind, request, lift,
      get_world, put_world, abort, raise, ret in H.
    crunch_tables H.
Qed.

Lemma requires_auth_returns_200 {Args : Type}
    (f : pyval -> Args -> M P Response) :
  (forall payload args req w r w',
      f payload args req w = (Ok r, w') -> status r = 200) ->
  forall permission args req w r w',
    requires_auth permission f args req w = (Ok r, w') -> status r = 200.
Proof.
  intros Hf permission args req w r w' H.
  rewrite requires_auth_steps in H.
  destruct (get_token_auth_header req w) as [[token|e] w1]; [|discriminate H].
  destruct (verify_decode_jwt P token) as [payload|e]; [|discriminate H].
  destruct (check_permissions permission payload); [|discriminate H].
  eauto.
Qed.

(** A view that returns, returns status 200. *)
Lemma view_returns_200
    (ep : Endpoint) (req : Request) (w w' : World P) (r : Response) :
  view ep req w = (Ok r, w') -> status r = 200.
Proof.
  destruct ep; cbn [view].
  - intros H; inversion H; reflexivity.
  - apply requires_auth_returns_200. intros payload args rq w0 r0 w0' H.
    unfold get_actors, bind, Actor_query_all, abort, raise, ret in H.
    crunch H.
  - apply requires_auth_returns_200. intros payload args rq w0 r0 w0' H.
    unfold get_movies, bind, Movie_query_all, abort, raise, ret in H.
    crunch H.
  - apply requires_auth_returns_200. intros payload args rq w0 r0 w0' H.
    unfold create_actor, Actor_insert, bind, request, lift, get_world,
      put_world, abort, raise, ret in H.
    crunch H.
  - apply requires_auth_returns_200. intros payload args rq w0 r0 w0' H.
    unfold create_movie, Movie_insert, bind, request, lift, get_world,
      put_world, abort, raise, ret in H.
    crunch H.
  - apply requires_auth_returns_200. intros payload args rq w0 r0 w0' H.
    unfold update_actor, Actor_update, Actor_query_get, assign_if_present,
      bind, request, lift, get_world, put_world, abort, raise, ret in H.
    crunch H.
  - apply requires_auth_returns_200. intros payload args rq w0 r0 w0' H.
    unfold update_movie, Movie_update, Movie_query_get, assign_if_present,
      bind, request, lift, get_world, put_world, abort, raise, ret in H.
    crunch H.
  - apply requires_auth_returns_200. intros payload args rq w0 r0 w0' H.
    unfold delete_actor, Actor_delete, Actor_query_get, bind, request, lift,
      get_world, put_world, abort, raise, ret in H.
    crunch H.
  - apply requires_auth_returns_200. intros payload args rq w0 r0 w0' H.
    unfold delete_movie, Movie_delete, Movie_query_get, bind, request, lift,
      get_world, put_world, abort, raise, ret in H.
    crunch H.
Qed.

(** The reading views leave the tables alone when they return, too. *)
Lemma reading_view_tables
    (ep : Endpoint) (req : Request) (w w' : World P) (x : result Response) :
  ep = get_health_ep \/ ep = get_actors_ep \/ ep = get_movies_ep ->
  view ep req w = (x, w') -> same_tables w w'.
Proof.
  intros Hep H. destruct x as [r|e]; [|exact (view_raise_tables ep req w H)].
  destruct Hep as [-> | [-> | ->]]; cbn [view] in H.
  - inversion H. apply same_tables_refl.
  - rewrite requires_auth_steps in H.
    destruct (get_token_auth_header req w) as [[token|e0] w1] eqn:Hg;
      [|discriminate H].
    pose proof (get_token_auth_header_world req w Hg) as Hw1; subst w1.
    destruct (verify_decode_jwt P token) as [payload|e1]; [|discriminate H].
    destruct (check_permissions "get:actors" payload); [|discriminate H].
    unfold get_actors, bind, Actor_query_all, abort, raise, ret in H.
    crunch_tables H.
  - rewrite requires_auth_steps in H.
    destruct (get_token_auth_header req w) as [[token|e0] w1] eqn:Hg;
      [|discriminate H].
    pose proof (get_token_auth_header_world req w Hg) as Hw1; subst w1.
    destruct (verify_decode_jwt P token) as [payload|e1]; [|discriminate H].
    destruct (check_permissions "get:movies" payload); [|discriminate H].
    unfold get_movies, bind, Movie_query_all, abort, raise, ret in H.
    crunch_tables H.
Qed.

(** X11: whatever the request, an answer with a status other than 200
    leaves both tables and their key counters as they were; and the three
    reading endpoints (GET /, GET /actors, GET /movies) leave them as they
    were whatever they answer. *)
Theorem only_successful_writes_change_tables
    (req : Request) (w w' : World P) (r : Response) :
  full_dispatch_request req w = (Ok r, w') ->
  (status r <> 200 -> same_tables w w') /\
  (routed req = Matched get_health_ep \/
   routed req = Matched get_actors_ep \/
   routed req = Matched get_movies_ep -> same_tables w w').
Proof.
  unfold full_dispatch_request. intros H.
  destruct (dispatch_request req w) as [[r0|e] w1] eqn:Hd.
  - inversion H; subst r0 w1.
    unfold dispatch_request, bind, request in Hd.
    destruct (routed req) as [ep|c d] eqn:Hr; [|discriminate Hd]. split.
    + intros Hs. exfalso. apply Hs. exact (view_returns_200 ep req w Hd).
    + intros Hep. apply (reading_view_tables (ep := ep) req w (x := Ok r));
        [|exact Hd].
      destruct Hep as [E | [E | E]]; inversion E; auto.
  - assert (Hw1 : same_tables w w1).
    { unfold dispatch_request, bind, request in Hd.
      destruct (routed req) as [ep|c d].
      - exact (view_raise_tables ep req w Hd).
      - inversion Hd. apply same_tables_refl. }
    pose proof (handle_user_exception_tables e req w1 H) as Hw'.
    split; intros _; exact (same_tables_trans Hw1 Hw').
Qed.

End BoundaryFurther.

(** ** The endpoints *)

Section Endpoints.

Variable P : Platform.

Lemma granted_passes {Args R : Type} (permission : string)
    (f : pyval -> Args -> M P R) (args : Args) (req : Request) (w : World P)
    (a : string) (claims : list (string * pyval)) :
  granted P req permission a claims ->
  requires_auth permission f args req w =
  f (PDict claims) args req (seen w (Some a)).
Proof.
  intros [part0 [token [l [H1 [H2 [H3 [H4 [H5 H6]]]]]]]].
  eapply granted_request_passes; eassumption.
Qed.

Lemma dispatch_matched (req : Request) (w : World P) (ep : Endpoint) :
  routed req = Matched ep ->
  full_dispatch_request req w =
  match view ep req w with
  | (Ok r, w') => (Ok r, w')
  | (Raise e, w') => handle_user_exception e req w'
  end.
Proof.
  intros H. unfold full_dispatch_request, dispatch_request, bind, request.
  now rewrite H.
Qed.

(** X8: on every platform, a request to a protected endpoint without an
    Authorization header, or with an empty one, is answered with the 401
    envelope "Authorization header is expected."; the key set is not
    fetched for it and the tables are not read. *)
Theorem missing_header_is_unauthorized
    (req : Request) (w : World P) (ep : Endpoint) (permission : string) :
  routed req = Matched ep ->
  required_permission ep = Some permission ->
  authorization req = None \/ authorization req = Some EmptyString ->
  full_dispatch_request req w =
  (Ok (failure 401 "Authorization header is expected."),
   seen w (authorization req)).
Proof.
  intros Hroute Hperm Hauth.
  rewrite (dispatch_matched req w Hroute).
  rewrite (view_protected ep (permission := permission) (req := req) (w := w)
             (w1 := seen w (authorization req))
             (error := {| code := "authorization_header_missing";
                          description := "Authorization header is expected." |})
             (status_code := 401) Hperm).
  - reflexivity.
  - apply extraction_raises.
    exact (get_token_auth_header_missing req w Hauth).
Qed.

(** X9: a request to a protected endpoint whose token verifies to claims
    whose [permissions] list lacks the endpoint's permission is answered
    with the 403 envelope "Permission not found."; only the log has
    changed. *)
Theorem lacking_permission_is_forbidden
    (req : Request) (w : World P) (ep : Endpoint)
    (permission a part0 token : string)
    (claims : list (string * pyval)) (l : list pyval) :
  routed req = Matched ep ->
  required_permission ep = Some permission ->
  authorization req = Some a ->
  split a = [part0; token] ->
  lower part0 = "bearer" ->
  verify_decode_jwt P token = Ok (PDict claims) ->
  lookup "permissions" claims = Some (PList l) ->
  ~ In (PStr permission) l ->
  full_dispatch_request req w =
  (Ok (failure 403 "Permission not found."), seen w (Some a)).
Proof.
  intros Hroute Hperm Hauth Hsplit Hlow Hverify Hl Hnin.
  rewrite (dispatch_matched req w Hroute).
  rewrite (view_protected ep (permission := permission) (req := req) (w := w)
             (w1 := seen w (Some a))
             (error := {| code := "unauthorized";
                          description := "Permission not found." |})
             (status_code := 403) Hperm).
  - reflexivity.
  - apply (@permission_check_raises P permission req w _ _ _ token
             (PDict claims)).
    + eapply get_token_auth_header_two_parts; eassumption.
    + exact Hverify.
    + rewrite (check_permissions_container permission claims Hl
                 (granted := false)); [reflexivity|].
      cbn [py_in]. f_equal.
      destruct (existsb (py_eq (PStr permission)) l) eqn:E; [|reflexivity].
      apply existsb_py_eq_str in E. contradiction.
Qed.


(** X13: a POST /actors request that passes the gate with a JSON object
    in which one of [name], [age], [gender] is missing or falsy (an empty
    text, the number 0, [null], [false]) is aborted with 400 "Missing
    required fields"; nothing is inserted. *)
Theorem create_actor_falsy_field_is_rejected
    (req : Request) (w : World P) (a : string)
    (claims : list (string * pyval)) (data name age gender : pyval) :
  routed req = Matched create_actor_ep ->
  granted P req "post:actors" a claims ->
  get_json req = Ok data ->
  py_truthy data = true ->
  py_get data "name" = Ok name ->
  py_get data "age" = Ok age ->
  py_get data "gender" = Ok gender ->
  py_truthy name && py_truthy age && py_truthy gender = false ->
  full_dispatch_request req w =
  (Ok {| body := Html "Missing required fields"; status := 400 |},
   seen w (Some a)).
Proof.
  intros Hroute Hgr Hjson Hd Hn Ha Hg Hfalsy.
  rewrite (dispatch_matched req w Hroute). cbn [view].
  erewrite granted_passes by eassumption.
  unfold create_actor, bind, request, lift, abort, raise.
  rewrite Hjson, Hd. cbn [negb]. rewrite Hn, Ha, Hg.
  assert (E : negb (py_truthy name) || negb (py_truthy age)
              || negb (py_truthy gender) = true).
  { destruct (py_truthy name), (py_truthy age), (py_truthy gender);
      try reflexivity; discriminate Hfalsy. }
  rewrite E. reflexivity.
Qed.

Lemma find_actor_exists (id : Z) (l : list Actor) (x : Actor) :
  In x l -> actor_id x = id ->
  exists actor,
    find (fun a => actor_id a =? id) l = Some actor /\ actor_id actor = id.
Proof.
  intros Hin Hid.
  destruct (find (fun a => actor_id a =? id) l) as [actor|] eqn:E.
  - exists actor. split; [reflexivity|].
    apply find_some in E as [_ E]. now apply Z.eqb_eq in E.
  - exfalso. pose proof (find_none _ _ E x Hin) as Hx. cbv beta in Hx.
    apply Z.eqb_neq in Hx. contradiction.
Qed.

(** X14: a DELETE /actors/id request that passes the gate, for an id the
    table holds and with a commit that goes through, is answered 200 with
    [{"success": true, "delete": id}]; afterwards the table holds exactly
    the rows it held under other ids, [Actor.query.get(id)] finds nothing,
    and the movies are as they were. *)
Theorem delete_actor_removes
    (req : Request) (w : World P) (a : string)
    (claims : list (string * pyval)) (id : Z) (x : Actor) :
  routed req = Matched (delete_actor_ep id) ->
  granted P req "delete:actors" a claims ->
  In x (actors w) -> actor_id x = id ->
  session_commit P = LOk tt ->
  exists w1,
    full_dispatch_request req w =
    (Ok (jsonify (PDict [("success", PBool true); ("delete", PInt id)])), w1) /\
    (forall y, In y (actors w1) <-> In y (actors w) /\ actor_id y <> id) /\
    (forall req2, Actor_query_get id req2 w1 = (Ok None, w1)) /\
    movies w1 = movies w.
Proof.
  intros Hroute Hgr Hin Hid Hcommit.
  destruct (@find_actor_exists id (actors w) x Hin Hid) as [actor [Hfind Hact]].
  exists (set_actors (seen w (Some a))
            (filter (fun y => negb (actor_id y =? id)) (actors w))
            (actors_seq w)).
  split; [|split; [|split]].
  - rewrite (dispatch_matched req w Hroute). cbn [view].
    erewrite granted_passes by eassumption.
    unfold delete_actor, Actor_delete, Actor_query_get, bind, lift,
      get_world, put_world, abort, raise, ret.
    cbn [actors seen add_log]. rewrite Hfind, Hcommit, Hact. reflexivity.
  - intros y. cbn [actors set_actors]. rewrite filter_In.
    rewrite negb_true_iff, Z.eqb_neq. reflexivity.
  - intros req2. unfold Actor_query_get. cbn [actors set_actors].
    f_equal. f_equal.
    apply find_none_iff. intros y Hy. apply filter_In in Hy as [_ Hy].
    now apply negb_true_iff in Hy.
  - reflexivity.
Qed.

(** X15: a PATCH or DELETE request that passes the gate for an id the
    table does not hold is answered with the 404 envelope, before the body
    is read and whatever it is; this holds for actors and for movies, and
    only the log has changed. *)
Theorem unknown_id_is_not_found
    (req : Request) (w : World P) (a permission : string)
    (claims : list (string * pyval)) (ep : Endpoint) (id : Z) :
  routed req = Matched ep ->
  required_permission ep = Some permission ->
  granted P req permission a claims ->
  ((ep = update_actor_ep id \/ ep = delete_actor_ep id) /\
   (forall x, In x (actors w) -> actor_id x <> id)) \/
  ((ep = update_movie_ep id \/ ep = delete_movie_ep id) /\
   (forall x, In x (movies w) -> movie_id x <> id)) ->
  full_dispatch_request req w =
  (Ok (failure 404 "resource not found"), seen w (Some a)).
Proof.
  intros Hroute Hperm Hgr Hcase.
  rewrite (dispatch_matched req w Hroute).
  destruct Hcase as [[Hep Hnone] | [Hep Hnone]].
  - assert (Hfind : find (fun x => actor_id x =? id) (actors w) = None).
    { apply find_none_iff. intros x Hx. apply Z.eqb_neq. now apply Hnone. }
    destruct Hep as [-> | ->]; cbn [required_permission] in Hperm;
      inversion Hperm; subst permission; cbn [view];
      erewrite granted_passes by eassumption.
    + unfold update_actor, Actor_query_get, bind, abort, raise.
      cbn [actors seen add_log]. rewrite Hfind. reflexivity.
    + unfold delete_actor, Actor_query_get, bind, abort, raise.
      cbn [actors seen add_log]. rewrite Hfind. reflexivity.
  - assert (Hfind : find (fun x => movie_id x =? id) (movies w) = None).
    { apply find_none_iff. intros x Hx. apply Z.eqb_neq. now apply Hnone. }
    destruct Hep as [-> | ->]; cbn [required_permission] in Hperm;
      inversion Hperm; subst permission; cbn [view];
      erewrite granted_passes by eassumption.
    + unfold update_movie, Movie_query_get, bind, abort, raise.
      cbn [movies seen add_log]. rewrite Hfind. reflexivity.
    + unfold delete_movie, Movie_query_get, bind, abort, raise.
      cbn [movies seen add_log]. rewrite Hfind. reflexivity.
Qed.



(** X17: a PATCH /actors/id request that passes the gate, for an id the
    table holds, whose body is JSON [null], is not refused as a bad
    request: testing ["name" in body] raises [TypeError], and the answer is
    the 500 envelope; the tables are as they were. *)
Theorem update_actor_null_body_is_server_error
    (req : Request) (w : World P) (a : string)
    (claims : list (string * pyval)) (id : Z) (actor : Actor) :
  routed req = Matched (update_actor_ep id) ->
  granted P req "patch:actors" a claims ->
  find (fun x => actor_id x =? id) (actors w) = Some actor ->
  get_json req = Ok PNone ->
  exists w1,
    full_dispatch_request req w =
    (Ok (failure 500 "Internal Server Error. Please try again later."), w1) /\
    same_tables w w1.
Proof.
  intros Hroute Hgr Hfind Hjson.
  eexists. split.
  - rewrite (dispatch_matched req w Hroute). cbn [view].
    erewrite granted_passes by eassumption.
    unfold update_actor, Actor_query_get.
    unfold bind at 1. cbn [actors seen add_log]. rewrite Hfind.
    unfold bind at 1. unfold request at 1.
    unfold bind at 1. unfold lift at 1. rewrite Hjson.
    unfold bind at 1. unfold assign_if_present, bind, lift.
    cbn [py_in]. reflexivity.
  - repeat split.
Qed.

End Endpoints.

(** ** The further properties at work on the platforms *)

Lemma director_granted (r : Routed) (json : result pyval) (permission : string) :
  existsb (String.eqb permission)
    ["get:actors"; "get:movies"; "post:actors"; "patch:actors";
     "patch:movies"; "delete:actors"] = true ->
  exists claims,
    granted online (example_request r (Some "Bearer director") json)
      permission "Bearer director" claims.
Proof.
  intros Hin. eexists. exists "Bearer", "director". eexists.
  repeat (split; [reflexivity|]).
  apply existsb_exists in Hin as [x [Hin Hx]].
  apply String.eqb_eq in Hx. subst x.
  cbn [map]. cbn [In] in *.
  repeat (destruct Hin as [<- | Hin]; [tauto|]). contradiction.
Qed.

(** A header of the Basic scheme. *)
Lemma get_token_auth_header_not_bearer_witness :
  let w := empty_world online in
  let r := example_request (Matched get_actors_ep)
             (Some "Basic dXNlcjpwYXNz") (Ok PNone) in
  get_token_auth_header r w =
  (Raise (AuthError
            {| code := "invalid_header";
               description := "Authorization header must start with 'Bearer'." |}
            401), seen w (Some "Basic dXNlcjpwYXNz")).
Proof.
  intros w r.
  apply (@get_token_auth_header_not_bearer online r w "Basic dXNlcjpwYXNz"
           "Basic" ["dXNlcjpwYXNz"] eq_refl eq_refl).
  discriminate.
Defined.

(** A header the extractor accepts. *)
Lemma get_token_auth_header_returns_witness :
  let w := empty_world online in
  let r := example_request (Matched get_actors_ep)
             (Some "bearer abc.def.ghi") (Ok PNone) in
  get_token_auth_header r w = (Ok "abc.def.ghi", seen w (Some "bearer abc.def.ghi")) /\
  exists a part0,
    authorization r = Some a /\ split a = [part0; "abc.def.ghi"] /\
    lower part0 = "bearer" /\
    "abc.def.ghi" <> EmptyString /\ no_space "abc.def.ghi" = true /\
    seen w (Some "bearer abc.def.ghi") = seen w (Some a).
Proof.
  intros w r. split; [reflexivity|].
  exact (@get_token_auth_header_returns online r w _ "abc.def.ghi" eq_refl).
Defined.

(** A header of three parts. *)
Lemma get_token_auth_header_error_status_witness :
  let w := empty_world online in
  let r := example_request (Matched get_actors_ep)
             (Some "Bearer abc def") (Ok PNone) in
  401 = 401 /\
  ("invalid_header" = "authorization_header_missing" \/
   "invalid_header" = "invalid_header").
Proof.
  intros w r.
  exact (@get_token_auth_header_error_status online r w _
           {| code := "invalid_header";
              description := "Authorization header must be 'Bearer <token>'." |}
           401 eq_refl).
Defined.

(** An expired token. *)
Lemma verify_decode_jwt_error_status_witness :
  ("token_expired" = "invalid_header" /\ (401 = 400 \/ 401 = 401)) \/
  ("token_expired" = "token_expired" /\ 401 = 401) \/
  ("token_expired" = "invalid_claims" /\ 401 = 401).
Proof.
  exact (@verify_decode_jwt_error_status online "expired"
           {| code := "token_expired"; description := "Token is expired." |}
           401 eq_refl).
Defined.

(** Key sets with an entry without ["kid"], and with a matching entry
    without ["use"]. *)
Lemma verify_decode_jwt_malformed_key_witness :
  verify_decode_jwt
    (publishing [example_key "k1";
                 PDict [("kty", PStr "RSA"); ("n", PStr "0vx7agoebGc");
                        ("e", PStr "AQAB")];
                 example_key "k2"])
    "assistant" = Raise (PyExc KeyError "kid") /\
  verify_decode_jwt
    (publishing [example_key "k1";
                 PDict [("kty", PStr "RSA"); ("kid", PStr "k2");
                        ("n", PStr "0vx7agoebGc"); ("e", PStr "AQAB")]])
    "assistant" = Raise (PyExc KeyError "use").
Proof.
  split.
  - destruct (@verify_decode_jwt_malformed_key
                (publishing [example_key "k1";
                             PDict [("kty", PStr "RSA");
                                    ("n", PStr "0vx7agoebGc");
                                    ("e", PStr "AQAB")];
                             example_key "k2"])
                "assistant" _ _ _
                [("kty", PStr "RSA"); ("n", PStr "0vx7agoebGc");
                 ("e", PStr "AQAB")]
                [example_key "k1"] [example_key "k2"] _
                eq_refl eq_refl eq_refl eq_refl eq_refl eq_refl) as [H _].
    exact (H eq_refl).
  - destruct (@verify_decode_jwt_malformed_key
                (publishing [example_key "k1";
                             PDict [("kty", PStr "RSA"); ("kid", PStr "k2");
                                    ("n", PStr "0vx7agoebGc");
                                    ("e", PStr "AQAB")]])
                "assistant" _ _ _
                [("kty", PStr "RSA"); ("kid", PStr "k2");
                 ("n", PStr "0vx7agoebGc"); ("e", PStr "AQAB")]
                [example_key "k1"] [] _
                eq_refl eq_refl eq_refl eq_refl eq_refl eq_refl) as [_ H].
    exact (H _ _ eq_refl eq_refl eq_refl eq_refl).
Defined.

(** Claims without permissions, and claims that do not grant. *)
Lemma check_permissions_outcomes_witness :
  403 = 403 /\
  ("invalid_claims" = "invalid_claims" \/ "invalid_claims" = "unauthorized").
Proof.
  destruct (check_permissions_outcomes "get:actors"
              (PDict [("aud", PStr "casting")])) as [H _].
  exact (H {| code := "invalid_claims";
              description := "Permissions not included in JWT." |} 403 eq_refl).
Defined.

(** Claims whose permissions are [null], a text and an object. *)
Lemma check_permissions_other_shapes_witness :
  check_permissions "get:actors" (PDict [("permissions", PNone)]) =
  Raise (PyExc TypeError "argument is not iterable") /\
  check_permissions "get:actors"
    (PDict [("permissions", PStr "forget:actors")]) = Ok (PBool true) /\
  check_permissions "get:actors"
    (PDict [("permissions", PDict [("get:actors", PBool false)])]) =
  Ok (PBool true).
Proof.
  split; [|split].
  - destruct (check_permissions_other_shapes "get:actors"
                [("permissions", PNone)]) as [H _].
    exact (H PNone eq_refl (or_introl eq_refl)).
  - destruct (check_permissions_other_shapes "get:actors"
                [("permissions", PStr "forget:actors")]) as [_ [H _]].
    exact (H "forget:actors" eq_refl eq_refl).
  - destruct (check_permissions_other_shapes "get:actors"
                [("permissions", PDict [("get:actors", PBool false)])])
      as [_ [_ H]].
    exact (H [("get:actors", PBool false)] (PBool false) eq_refl eq_refl).
Defined.

(** A request without a header, while the identity provider is out of
    reach. *)
Lemma missing_header_is_unauthorized_witness :
  let w := empty_world offline in
  let r := example_request (Matched (delete_movie_ep 3)) None (Ok PNone) in
  full_dispatch_request r w =
  (Ok (failure 401 "Authorization header is expected."), seen w None).
Proof.
  intros w r.
  exact (@missing_header_is_unauthorized offline r w (delete_movie_ep 3)
           "delete:movies" eq_refl eq_refl (or_introl eq_refl)).
Defined.

(** An assistant posts an actor. *)
Lemma lacking_permission_is_forbidden_witness :
  let w := empty_world online in
  let r := example_request (Matched create_actor_ep) (Some "Bearer assistant")
             (Ok (PDict [("name", PStr "Johny Depp"); ("age", PInt 60);
                         ("gender", PStr "Male")])) in
  full_dispatch_request r w =
  (Ok (failure 403 "Permission not found."), seen w (Some "Bearer assistant")).
Proof.
  intros w r.
  apply (@lacking_permission_is_forbidden online r w create_actor_ep
           "post:actors" "Bearer assistant" "Bearer" "assistant" _
           [PStr "get:actors"; PStr "get:movies"]
           eq_refl eq_refl eq_refl eq_refl eq_refl eq_refl eq_refl).
  simpl. intros [E | [E | []]]; discriminate E.
Defined.

(** An assistant asks to delete the actor 1: the answer is 403 and the
    tables are as they were. *)
Lemma only_successful_writes_change_tables_witness :
  let w := stocked_world online in
  let r := example_request (Matched (delete_actor_ep 1))
             (Some "Bearer assistant") (Ok PNone) in
  full_dispatch_request r w =
  (Ok (failure 403 "Permission not found."), seen w (Some "Bearer assistant")) /\
  same_tables w (seen w (Some "Bearer assistant")).
Proof.
  intros w r. split; [reflexivity|].
  destruct (@only_successful_writes_change_tables online r w
              (seen w (Some "Bearer assistant"))
              (failure 403 "Permission not found.") eq_refl) as [H _].
  apply H. discriminate.
Defined.


(** A director posts an actor of age 0. *)
Lemma create_actor_falsy_field_is_rejected_witness :
  let w := empty_world online in
  let r := example_request (Matched create_actor_ep) (Some "Bearer director")
             (Ok (PDict [("name", PStr "Baby Doe"); ("age", PInt 0);
                         ("gender", PStr "Female")])) in
  full_dispatch_request r w =
  (Ok {| body := Html "Missing required fields"; status := 400 |},
   seen w (Some "Bearer director")).
Proof.
  intros w r.
  destruct (@director_granted (Matched create_actor_ep) (get_json r)
              "post:actors" eq_refl) as [claims Hg].
  exact (@create_actor_falsy_field_is_rejected online r w "Bearer director"
           claims _ (PStr "Baby Doe") (PInt 0) (PStr "Female")
           eq_refl Hg eq_refl eq_refl eq_refl eq_refl eq_refl eq_refl).
Defined.

(** A director deletes the actor 1 of a database of one. *)
Lemma delete_actor_removes_witness :
  let w := stocked_world online in
  let r := example_request (Matched (delete_actor_ep 1))
             (Some "Bearer director") (Ok PNone) in
  exists w1,
    full_dispatch_request r w =
    (Ok (jsonify (PDict [("success", PBool true); ("delete", PInt 1)])), w1) /\
    (forall req2, Actor_query_get 1 req2 w1 = (Ok None, w1)).
Proof.
  intros w r.
  destruct (@director_granted (Matched (delete_actor_ep 1)) (get_json r)
              "delete:actors" eq_refl) as [claims Hg].
  destruct (@delete_actor_removes online r w "Bearer director" claims 1
              {| actor_id := 1; actor_name := PStr "Test Actor";
                 actor_age := PInt 40; actor_gender := PStr "Female" |}
              eq_refl Hg (or_introl eq_refl) eq_refl eq_refl)
    as [w1 [H1 [_ [H3 _]]]].
  exists w1. auto.
Defined.

(** A director patches the actor 9999 and deletes it, in a database where
    it is not. *)
Lemma unknown_id_is_not_found_witness :
  let w := stocked_world online in
  let r1 := example_request (Matched (update_actor_ep 9999))
              (Some "Bearer director") (Ok (PDict [("age", PInt 35)])) in
  let r2 := example_request (Matched (delete_actor_ep 9999))
              (Some "Bearer director") (Ok PNone) in
  full_dispatch_request r1 w =
  (Ok (failure 404 "resource not found"), seen w (Some "Bearer director")) /\
  full_dispatch_request r2 w =
  (Ok (failure 404 "resource not found"), seen w (Some "Bearer director")).
Proof.
  intros w r1 r2. split.
  - destruct (@director_granted (Matched (update_actor_ep 9999)) (get_json r1)
                "patch:actors" eq_refl) as [claims Hg].
    apply (@unknown_id_is_not_found online r1 w "Bearer director"
             "patch:actors" claims (update_actor_ep 9999) 9999
             eq_refl eq_refl Hg).
    left. split; [left; reflexivity|].
    intros x [<- | []]. discriminate.
  - destruct (@director_granted (Matched (delete_actor_ep 9999)) (get_json r2)
                "delete:actors" eq_refl) as [claims Hg].
    apply (@unknown_id_is_not_found online r2 w "Bearer director"
             "delete:actors" claims (delete_actor_ep 9999) 9999
             eq_refl eq_refl Hg).
    left. split; [right; reflexivity|].
    intros x [<- | []]. discriminate.
Defined.


(** A director patches the actor 1 with the body [null]. *)
Lemma update_actor_null_body_is_server_error_witness :
  let w := stocked_world online in
  let r := example_request (Matched (update_actor_ep 1))
             (Some "Bearer director") (Ok PNone) in
  exists w1,
    full_dispatch_request r w =
    (Ok (failure 500 "Internal Server Error. Please try again later."), w1) /\
    same_tables w w1.
Proof.
  intros w r.
  destruct (@director_granted (Matched (update_actor_ep 1)) (get_json r)
              "patch:actors" eq_refl) as [claims Hg].
  exact (@update_actor_null_body_is_server_error online r w "Bearer director"
           claims 1
           {| actor_id := 1; actor_name := PStr "Test Actor";
              actor_age := PInt 40; actor_gender := PStr "Female" |}
           eq_refl Hg eq_refl eq_refl).
Defined.
